(** * Finnhub candle ETL: a shallow embedding of [finnhub_etl_elasticsearch.py]

    The script is a straight-line batch job: resolve an Elasticsearch client,
    make sure the index exists, fetch daily candles per symbol, derive some
    columns, drop incomplete rows and bulk-load one document per row.

    Modelling conventions.
    - Everything the script reads from outside (environment variables, the
      Elasticsearch cluster, the HTTP API, the clock, numpy's random
      generator, the installed pandas) is a field of the record [world]; a
      run is a function of it.
    - Side effects that matter (calls to the cluster and the API, the sleep,
      the log lines that report an outcome) are recorded in a trace by a
      writer monad; purely decorative console narration is left out.
    - A numeric cell is a binary64 value, Rocq's primitive [float]: the
      operations round, overflow to the infinities and keep the sign of zero
      as IEEE 754 does.  A JSON number is taken at its binary64 value (an
      integer beyond 2^53 is outside the model), and a JSON null in an array
      of numbers is the cell NaN, as pandas makes it.
    - A pandas [Timestamp] / Python [datetime] is a naive instant: seconds
      since 1970-01-01T00:00:00 and microseconds.
    - The script pins no version of pandas.  Where versions differ in what
      the script can observe (the range of representable instants, the
      forward fill of [pct_change], the text of a missing value), the choice
      is a field of [pandas], part of the world. *)

From Stdlib Require Import ZArith Floats String Ascii List Bool Lia.
From Stdlib Require Import DecimalString.
Import ListNotations.

#[local] Set Warnings "-inexact-float".

Local Open Scope string_scope.
Local Open Scope Z_scope.

(** ** float64 cells *)

(** [pd.notna] on a numeric cell: only NaN is missing. *)
Definition notna (x : float) : bool := negb (PrimFloat.is_nan x).

(** Python's [int(x)] on a float: the whole part, cut toward zero; it
    raises on NaN and on the infinities.  The value of a finite float is its
    mantissa times a power of two. *)
Definition py_int (x : float) : option Z :=
  match Prim2SF x with
  | S754_zero _ => Some 0
  | S754_finite sign m e =>
      let magnitude := match e with
                       | Z0 => Zpos m
                       | Zpos p => Zpos m * 2 ^ Zpos p
                       | Zneg p => Zpos m / 2 ^ Zpos p
                       end in
      Some (if sign then - magnitude else magnitude)
  | S754_infinity _ => None
  | S754_nan => None
  end.

(** ** Decimal text *)

Definition str_of_Z (z : Z) : string := NilZero.string_of_int (Z.to_int z).

Definition digit (z : Z) : ascii := ascii_of_nat (48 + Z.to_nat (z mod 10)).

(** The [width] low decimal digits of [z], most significant first: the
    [%0<width>d] of a value that fits. *)
Fixpoint pad_dec (width : nat) (z : Z) (acc : string) : string :=
  match width with
  | O => acc
  | S w => pad_dec w (z / 10) (String (digit z) acc)
  end.

(** ** Dates and times *)

Record datetime : Type := mk_datetime {
  dt_secs : Z;      (* seconds since 1970-01-01T00:00:00 *)
  dt_micro : Z      (* microseconds within the second *)
}.

Record date : Type := mk_date { d_year : Z; d_month : Z; d_day : Z }.

(** Proleptic Gregorian date of a day number counted from 1970-01-01. *)
Definition civil_from_days (days : Z) : date :=
  let z := days + 719468 in
  let era := z / 146097 in
  let doe := z - era * 146097 in
  let yoe := (doe - doe / 1460 + doe / 36524 - doe / 146096) / 365 in
  let doy := doe - (365 * yoe + yoe / 4 - yoe / 100) in
  let mp := (5 * doy + 2) / 153 in
  let d := doy - (153 * mp + 2) / 5 + 1 in
  let m := if mp <? 10 then mp + 3 else mp - 9 in
  let y := yoe + era * 400 in
  mk_date (if m <=? 2 then y + 1 else y) m d.

(** [pd.to_datetime(x, unit='s')] on one epoch value. *)
Definition to_datetime (epoch : Z) : datetime := mk_datetime epoch 0.

Definition dt_date (t : datetime) : date := civil_from_days (dt_secs t / 86400).
Definition dt_hour (t : datetime) : Z := (dt_secs t mod 86400) / 3600.
Definition dt_minute (t : datetime) : Z := (dt_secs t mod 3600) / 60.
Definition dt_second (t : datetime) : Z := dt_secs t mod 60.
Definition dt_month (t : datetime) : Z := d_month (dt_date t).

(** [t - pd.Timedelta(days=i)]. *)
Definition minus_days (t : datetime) (i : nat) : datetime :=
  mk_datetime (dt_secs t - 86400 * Z.of_nat i) (dt_micro t).

(** [str(date)]: YYYY-MM-DD. *)
Definition str_of_date (d : date) : string :=
  pad_dec 4 (d_year d) ("-" ++ pad_dec 2 (d_month d) ("-" ++ pad_dec 2 (d_day d) "")).

(** [isoformat()]: the fraction is printed only when it is not zero. *)
Definition isoformat (t : datetime) : string :=
  str_of_date (dt_date t) ++ "T" ++
  pad_dec 2 (dt_hour t) (":" ++ pad_dec 2 (dt_minute t) (":" ++ pad_dec 2 (dt_second t)
    (if dt_micro t =? 0 then "" else "." ++ pad_dec 6 (dt_micro t) ""))).


(** ** Data frames

    One [row] is one line of a pandas frame.  A missing value is NaN in a
    numeric cell, NaT ([None]) in a timestamp, and [None] in a text or date
    cell.  A symbol is read with [str] whether it is there or not, so its
    cell tells Python's None from NaN.  The columns that [generate_actions]
    treats as optional carry one more [option]: [None] there means that the
    frame has no such column.  So does [r_season]: the column is not there
    until line 222 adds it, and reading it before raises. *)

Inductive symbol_cell : Type :=
| Symbol (s : string)
| SymbolNone
| SymbolNaN.

Record row : Type := mk_row {
  r_timestamp : option datetime;
  r_symbol : symbol_cell;
  r_open : option float;
  r_high : option float;
  r_low : option float;
  r_close : float;
  r_volume : float;
  r_price_change : option float;
  r_volume_change : option float;
  r_hour : option string;
  r_month : option Z;
  r_trip_date : option (option date);
  r_price_per_volume : option float;
  r_sentiment : option string;
  r_season : option (option string)
}.

Definition frame : Type := list row.

(** ** Index documents *)

Inductive jval : Type :=
| JNull
| JStr (s : string)
| JInt (z : Z)
| JFloat (x : float).

(** A Python dict: keys in insertion order, no key twice. *)
Definition dict : Type := list (string * jval).

Fixpoint dict_get (k : string) (d : dict) : option jval :=
  match d with
  | [] => None
  | (k', v) :: rest => if String.eqb k k' then Some v else dict_get k rest
  end.

(** [d[k] = v]: overwrite in place, or append a new key. *)
Fixpoint dict_set (k : string) (v : jval) (d : dict) : dict :=
  match d with
  | [] => [(k, v)]
  | (k', v') :: rest =>
      if String.eqb k k' then (k', v) :: rest else (k', v') :: dict_set k v rest
  end.

Record doc : Type := mk_doc { _index : string; _source : dict }.

Definition index_name : string := "finnhub_stocks".

(** ** The transformer *)

(** Element-wise operation of two aligned columns. *)
Fixpoint map2 {A B C : Type} (f : A -> B -> C) (xs : list A) (ys : list B) : list C :=
  match xs, ys with
  | x :: xs', y :: ys' => f x y :: map2 f xs' ys'
  | _, _ => []
  end.

(** [Series.shift(1)]: every value moves one row down, the first row gets
    NaN and the last value falls off. *)
Definition shift (data : list float) : list float :=
  match data with
  | [] => []
  | _ :: _ => nan :: removelast data
  end.

(** [Series.ffill()]: a missing value takes the last value before it that
    is not missing; leading missing values stay. *)
Fixpoint ffill_from (last : float) (data : list float) : list float :=
  match data with
  | [] => []
  | x :: rest =>
      let y := if PrimFloat.is_nan x then last else x in
      y :: ffill_from y rest
  end.

Definition ffill (data : list float) : list float := ffill_from nan data.

(** [Series.pct_change()] is [data / data.shift(1) - 1], on the forward
    filled column where pandas still fills. *)
Definition pct_change (pad : bool) (data : list float) : list float :=
  let data := if pad then ffill data else data in
  map2 (fun d s => (d / s - 1)%float) data (shift data).

(** [Series.replace(0, np.nan)]: a zero of either sign equals 0. *)
Definition replace_zero_nan (data : list float) : list float :=
  map (fun v => if (v =? 0)%float then nan else v) data.

(** Line 174: [close / volume.replace(0, np.nan)]. *)
Definition price_per_volume (close volume : list float) : list float :=
  map2 PrimFloat.div close (replace_zero_nan volume).

(** Line 169: [close - open]. *)
Definition price_change (close open : list float) : list float :=
  map2 PrimFloat.sub close open.

Definition get_season (month : Z) : string :=
  if existsb (Z.eqb month) [12; 1; 2] then "Winter"
  else if existsb (Z.eqb month) [3; 4; 5] then "Spring"
  else if existsb (Z.eqb month) [6; 7; 8] then "Summer"
  else if existsb (Z.eqb month) [9; 10; 11] then "Fall"
  else "Unknown".

(** [df['month'].apply(get_season)]: a NaN month is in none of the lists. *)
Definition season_of_cell (month : option Z) : string :=
  match month with
  | Some m => get_season m
  | None => "Unknown"
  end.

Definition set_season (r : row) : row :=
  mk_row (r_timestamp r) (r_symbol r) (r_open r) (r_high r) (r_low r)
         (r_close r) (r_volume r) (r_price_change r) (r_volume_change r)
         (r_hour r) (r_month r) (r_trip_date r) (r_price_per_volume r)
         (r_sentiment r) (Some (Some (season_of_cell (r_month r)))).

(** Line 222. *)
Definition add_season (df : frame) : frame := map set_season df.

Definition is_some {A : Type} (o : option A) : bool :=
  match o with Some _ => true | None => false end.

Definition symbol_present (c : symbol_cell) : bool :=
  match c with Symbol _ => true | SymbolNone => false | SymbolNaN => false end.

(** The four cells that line 223 requires. *)
Definition complete (r : row) : bool :=
  is_some (r_timestamp r) && symbol_present (r_symbol r)
  && notna (r_close r) && notna (r_volume r).

(** Line 223: [df.dropna(subset=['@timestamp','symbol','close','volume'])]. *)
Definition dropna (df : frame) : frame := filter complete df.

(** ** The document builder *)

(** [if key in row and pd.notna(row[key]): source[key] = float(row[key])]. *)
Definition set_float (key : string) (cell : option float) (src : dict) : dict :=
  match cell with
  | Some x => if notna x then dict_set key (JFloat x) src else src
  | None => src
  end.

(** The same for [trip_date], which is written with [str]. *)
Definition set_date (key : string) (cell : option (option date)) (src : dict) : dict :=
  match cell with
  | Some (Some d) => dict_set key (JStr (str_of_date d)) src
  | _ => src
  end.

(** [str(row['symbol'])]. *)
Definition py_str (cell : symbol_cell) : string :=
  match cell with
  | Symbol s => s
  | SymbolNone => "None"
  | SymbolNaN => "nan"
  end.

Definition or_default (cell : option string) (default : string) : jval :=
  match cell with Some s => JStr s | None => JStr default end.

(** The body of the loop of [generate_actions] for one row (lines 232-262).
    [None] is an exception, which the loop catches: the row is skipped.
    [int(row['volume'])] raises on an infinite volume, and [row['season']]
    raises when the frame has no season column. *)
Definition action (r : row) : option doc :=
  match (if notna (r_volume r) then option_map JInt (py_int (r_volume r))
         else Some JNull),
        r_season r with
  | Some volume, Some season =>
      let src :=
        [ ("@timestamp", match r_timestamp r with
                         | Some t => JStr (isoformat t)
                         | None => JNull
                         end);
          ("symbol", JStr (py_str (r_symbol r)));
          ("close", if notna (r_close r) then JFloat (r_close r) else JNull);
          ("volume", volume);
          ("hour", or_default (r_hour r) "0");
          ("month", match r_month r with Some m => JInt m | None => JNull end);
          ("season", or_default season "Unknown");
          ("sentiment", or_default (r_sentiment r) "Neutral") ] in
      let src := set_float "open" (r_open r) src in
      let src := set_float "high" (r_high r) src in
      let src := set_float "low" (r_low r) src in
      let src := set_float "price_change" (r_price_change r) src in
      let src := set_float "volume_change" (r_volume_change r) src in
      let src := set_float "price_per_volume" (r_price_per_volume r) src in
      let src := set_date "trip_date" (r_trip_date r) src in
      Some (mk_doc index_name src)
  | _, _ => None
  end.

(** [generate_actions(df)], as the list of what the generator yields. *)
Fixpoint generate_actions (df : frame) : list doc :=
  match df with
  | [] => []
  | r :: rest =>
      match action r with
      | Some d => d :: generate_actions rest
      | None => generate_actions rest
      end
  end.

(** ** The installed pandas *)

Record pandas : Type := mk_pandas {
  (* false: instants are kept in nanoseconds, 1677-09-21 to 2262-04-11;
     true: in seconds, and [dt.date] limits them to the years 1 to 9999 *)
  wide_instants : bool;
  (* [pct_change] fills missing values forward before it divides *)
  pads_pct_change : bool;
  (* [astype(str)] writes a missing value as the text "nan"; otherwise the
     value stays missing *)
  nan_as_text : bool
}.

Definition epoch_min (lib : pandas) : Z :=
  if wide_instants lib then -62135596800 else -9223372036.

Definition epoch_max (lib : pandas) : Z :=
  if wide_instants lib then 253402300799 else 9223372036.

(** The epoch second can be turned into the timestamp, hour, month and date
    of a row; a null is NaT and always can. *)
Definition representable (lib : pandas) (epoch : option Z) : bool :=
  match epoch with
  | Some z => (epoch_min lib <=? z) && (z <=? epoch_max lib)
  | None => true
  end.

(** ** The fetcher: one response to one frame *)

(** The JSON body of a candle response; a field is [None] when the key is
    not in the object.  The entries of [t] are whole epoch seconds, as the
    API sends them, or null ([None]); in the arrays of numbers a null is
    NaN. *)
Record candles : Type := mk_candles {
  resp_s : option string;
  resp_t : option (list (option Z));
  resp_o : option (list float);
  resp_h : option (list float);
  resp_l : option (list float);
  resp_c : option (list float);
  resp_v : option (list float)
}.

Definition same_length {A B : Type} (xs : list A) (ys : list B) : bool :=
  Nat.eqb (length xs) (length ys).

Definition is_none {A : Type} (o : option A) : bool :=
  match o with Some _ => false | None => true end.

(** Line 171, [dt.hour.astype(str)]: the hours are integers, unless a NaT
    in the column makes them floats. *)
Definition hour_text (lib : pandas) (as_float : bool) (ts : option datetime)
  : option string :=
  match ts with
  | Some t => Some (if as_float then str_of_Z (dt_hour t) ++ ".0"
                    else str_of_Z (dt_hour t))
  | None => if nan_as_text lib then Some "nan" else None
  end.

(** Lines 160-175.  [pd.to_datetime] and [dt.date] raise on an instant they
    cannot represent, and [pd.DataFrame] raises when the arrays differ in
    length ([None]); the scalars [symbol] and ['Neutral'] are broadcast. *)
Definition build_frame (lib : pandas) (symbol : string) (t : list (option Z))
           (o h l c v : list float) : option frame :=
  if forallb (representable lib) t
     && same_length o t && same_length h t && same_length l t
     && same_length c t && same_length v t
  then
    let timestamp := map (option_map to_datetime) t in
    let pc := price_change c o in
    let vc := pct_change (pads_pct_change lib) v in
    let hour := map (hour_text lib (existsb is_none t)) timestamp in
    let month := map (option_map dt_month) timestamp in
    let trip_date := map (option_map dt_date) timestamp in
    let ppv := price_per_volume c v in
    Some (map (fun i =>
                 mk_row (nth i timestamp None)
                        (Symbol symbol)
                        (Some (nth i o nan))
                        (Some (nth i h nan))
                        (Some (nth i l nan))
                        (nth i c nan)
                        (nth i v nan)
                        (Some (nth i pc nan))
                        (Some (nth i vc nan))
                        (nth i hour None)
                        (nth i month None)
                        (Some (nth i trip_date None))
                        (Some (nth i ppv nan))
                        (Some "Neutral")
                        None)
              (seq 0 (length t)))
  else None.

Inductive fetch_result : Type :=
| Fetched (df : frame)
| NoData (status : option string)
| FetchError.

(** Lines 157-181 for one symbol; the argument is what
    [requests.get(url).json()] gives, [None] when it raises. *)
Definition fetch_symbol (lib : pandas) (symbol : string) (response : option candles)
  : fetch_result :=
  match response with
  | None => FetchError
  | Some data =>
      let ok := match resp_s data with Some s => String.eqb s "ok" | None => false end in
      let has_t := match resp_t data with Some (_ :: _) => true | _ => false end in
      if ok && has_t then
        match resp_t data, resp_o data, resp_h data, resp_l data, resp_c data, resp_v data with
        | Some t, Some o, Some h, Some l, Some c, Some v =>
            match build_frame lib symbol t o h l c v with
            | Some df => Fetched df
            | None => FetchError
            end
        | _, _, _, _, _, _ => FetchError
        end
      else NoData (resp_s data)
  end.

(** ** The outside world and the trace of a run *)

(** One entry of [ELASTICSEARCH_CONFIGS]. *)
Record config : Type := mk_config {
  hosts : string;
  basic_auth : option (string * string);
  verify_certs : bool;
  request_timeout : Z;
  description : string
}.

Inductive info_outcome : Type :=
| InfoOk (version : string)   (* es.info() returns *)
| InfoUnauthorized            (* it raises, and the text says unauthorized *)
| InfoFailed.                 (* it raises anything else *)

Inductive bulk_outcome : Type :=
| BulkOk (success_count : nat) (failed_items : nat)
| BulkRaise.

(** What numpy's generator is asked for one synthetic row (lines 196-207):
    the raw draws, which [uniform], [randint] and [choice] below bring into
    the range that the call asks for. *)
Record draw : Type := mk_draw {
  dr_open : float; dr_high : float; dr_low : float; dr_close : float;
  dr_volume : float;
  dr_price_change : float; dr_volume_change : float;
  dr_hour : Z;
  dr_price_per_volume : float;
  dr_sentiment : nat
}.

(** [np.random.uniform(low, high)]: some value from [low] up to [high]. *)
Definition uniform (low high raw : float) : float :=
  if ((low <=? raw) && (raw <? high))%float then raw else low.

(** [np.random.randint(low, high)]: some integer from [low] up to [high]. *)
Definition randint (low high raw : Z) : Z :=
  if (low <=? raw) && (raw <? high) then raw else low.

(** A cell that holds a whole number: a mantissa that the power of two
    divides. *)
Definition whole (x : float) : bool :=
  match Prim2SF x with
  | S754_zero _ => true
  | S754_finite _ m e =>
      match e with
      | Zneg p => Zpos m mod 2 ^ Zpos p =? 0
      | _ => true
      end
  | S754_infinity _ => false
  | S754_nan => false
  end.

(** The same, as the cell of a numeric column. *)
Definition randint_cell (low high raw : float) : float :=
  if ((low <=? raw)%float && (raw <? high)%float) && whole raw then raw else low.

(** [np.random.choice(options)]. *)
Definition choice (options : list string) (raw : nat) : string :=
  nth (Nat.modulo raw (length options)) options "".

Record world : Type := mk_world {
  (* the installed pandas *)
  lib : pandas;
  (* os.getenv *)
  env_host : option string;
  env_username : option string;
  env_password : option string;
  (* the cluster *)
  es_new : config -> bool;                     (* the client constructor returns *)
  es_info : config -> info_outcome;
  es_exists : config -> string -> option bool; (* None: indices.exists raises *)
  es_create : config -> string -> bool;        (* indices.create returns *)
  es_bulk : nat -> list doc -> bulk_outcome;   (* the n-th helpers.bulk of the run *)
  (* the market-data API: the parsed body, None when get or json raise *)
  api_get : string -> option candles;
  (* datetime.now() and numpy.random at their call sites *)
  now_sample : string -> nat -> datetime;
  rng_sample : string -> nat -> draw;
  now_smoke_timestamp : datetime;
  now_smoke_month : datetime
}.

Inductive message : Type :=
| MAttempt (i : nat) (description : string)
| MConnected (version : string)
| MLimitedPermissions
| MIndexOpsWork
| MIndexOpsFailed
| MFailed
| MAllAttemptsFailed
| MIndexExists
| MIndexCreated
| MIndexWarning
| MFetching (symbol : string)
| MFetched (n : nat) (symbol : string)
| MNoData (symbol : string) (status : option string)
| MFetchError (symbol : string)
| MNoStockData
| MLoaded (n : nat)
| MIndexing
| MIndexed (n : nat)
| MFailedItems (n : nat)
| MIndexingError
| MSampleIndexed (n : nat)
| MSampleFailed.

Inductive event : Type :=
| ENewClient (c : config)
| EInfo (c : config)
| EExists (c : config) (index : string)
| ECreate (c : config) (index : string)
| EGet (symbol : string)
| ESleep
| EBulk (c : config) (docs : list doc)
| EPrint (m : message).

Definition trace : Type := list event.

(** A computation that appends to the trace. *)
Definition M (A : Type) : Type := (A * trace)%type.

Definition ret {A : Type} (a : A) : M A := (a, []).

Definition bind {A B : Type} (m : M A) (k : A -> M B) : M B :=
  let (a, tr) := m in
  let (b, tr') := k a in
  (b, (tr ++ tr')%list).

Definition tell (e : event) : M unit := (tt, [e]).
Definition print (m : message) : M unit := tell (EPrint m).

Notation "x <- m ;; k" := (bind m (fun x => k))
  (at level 61, m at next level, right associativity).
Notation "m ;; k" := (bind m (fun _ => k))
  (at level 61, right associativity).

(** ** Connection resolver (lines 22-108) *)

(** Python truthiness of an environment value. *)
Definition truthy (v : option string) : bool :=
  match v with
  | Some s => negb (String.eqb s "")
  | None => false
  end.

Definition local_config : config :=
  mk_config "http://localhost:9200" None false 30 "Local Elasticsearch (fallback)".

Definition ELASTICSEARCH_CONFIGS (w : world) : list config :=
  match env_host w, env_username w, env_password w with
  | Some host, Some user, Some password =>
      if truthy (env_host w) && truthy (env_username w) && truthy (env_password w)
      then [ mk_config host (Some (user, password)) (prefix "https://" host) 30
                       ("Environment config (" ++ host ++ ")");
             local_config ]
      else [ local_config ]
  | _, _, _ => [ local_config ]
  end.

(** The loop of lines 58-86, with [es] as the variable it assigns.  The
    client is bound to [es] before it is probed; [break] returns, [continue]
    goes on with the rest of the candidates. *)
Fixpoint connect (w : world) (i : nat) (configs : list config) (es : option config)
  : M (option config) :=
  match configs with
  | [] => ret es
  | c :: rest =>
      print (MAttempt i (description c)) ;;
      tell (ENewClient c) ;;
      if es_new w c then
        let es := Some c in
        tell (EInfo c) ;;
        match es_info w c with
        | InfoOk version => print (MConnected version) ;; ret es
        | InfoUnauthorized =>
            print MLimitedPermissions ;;
            tell (EExists c "test") ;;
            match es_exists w c "test" with
            | Some _ => print MIndexOpsWork ;; ret es
            | None => print MIndexOpsFailed ;; connect w (S i) rest es
            end
        | InfoFailed => print MFailed ;; connect w (S i) rest es
        end
      else
        print MFailed ;; connect w (S i) rest es
  end.

(** ** Schema initializer (lines 135-143) *)

Definition init_schema (w : world) (es : config) : M unit :=
  tell (EExists es index_name) ;;
  match es_exists w es index_name with
  | Some true => print MIndexExists
  | Some false =>
      tell (ECreate es index_name) ;;
      if es_create w es index_name then print MIndexCreated else print MIndexWarning
  | None => print MIndexWarning
  end.

(** ** Data fetcher (lines 147-211) *)

Definition symbols : list string := ["AAPL"; "TSLA"; "MSFT"; "GOOGL"; "AMZN"].

Fixpoint fetch_all (w : world) (todo : list string) (df_list : list frame)
  : M (list frame) :=
  match todo with
  | [] => ret df_list
  | symbol :: rest =>
      print (MFetching symbol) ;;
      tell (EGet symbol) ;;
      df_list' <- match fetch_symbol (lib w) symbol (api_get w symbol) with
                  | Fetched df => print (MFetched (length df) symbol) ;; ret (df_list ++ [df])%list
                  | NoData status => print (MNoData symbol status) ;; ret df_list
                  | FetchError => print (MFetchError symbol) ;; ret df_list
                  end ;;
      tell ESleep ;;
      fetch_all w rest df_list'
  end.

(** One synthetic row (lines 192-208). *)
Definition sample_row (w : world) (symbol : string) (i : nat) : row :=
  let date := minus_days (now_sample w symbol i) i in
  let d := rng_sample w symbol i in
  mk_row (Some date) (Symbol symbol)
         (Some (uniform 100 200 (dr_open d)))
         (Some (uniform 200 250 (dr_high d)))
         (Some (uniform 50 100 (dr_low d)))
         (uniform 100 200 (dr_close d))
         (randint_cell 1000000 10000000 (dr_volume d))
         (Some (uniform (-10) 10 (dr_price_change d)))
         (Some (uniform (-0.5) 0.5 (dr_volume_change d)))
         (Some (str_of_Z (randint 0 24 (dr_hour d))))
         (Some (dt_month date))
         (Some (Some (dt_date date)))
         (Some (uniform 0.00001 0.0001 (dr_price_per_volume d)))
         (Some (choice ["Positive"; "Negative"; "Neutral"] (dr_sentiment d)))
         None.

Definition sample_data (w : world) : frame :=
  flat_map (fun symbol => map (sample_row w symbol) (seq 0 30)) symbols.

(** ** Bulk loader (lines 267-293) *)

Definition bulk (w : world) (es : config) (n : nat) (docs : list doc) : M bulk_outcome :=
  tell (EBulk es docs) ;; ret (es_bulk w n docs).

(** The one-row frame of lines 278-287. *)
Definition sample_df (w : world) : frame :=
  [ mk_row (Some (now_smoke_timestamp w)) (Symbol "AAPL") None None None
           150 1000000 None None
           (Some "14") (Some (dt_month (now_smoke_month w))) None None
           (Some "Neutral") (Some (Some "Fall")) ].

Definition load (w : world) (es : config) (df : frame) : M unit :=
  print MIndexing ;;
  r <- bulk w es 0 (generate_actions df) ;;
  match r with
  | BulkOk success_count failed_items =>
      print (MIndexed success_count) ;;
      if Nat.eqb failed_items 0 then ret tt else print (MFailedItems failed_items)
  | BulkRaise =>
      print MIndexingError ;;
      r2 <- bulk w es 1 (generate_actions (sample_df w)) ;;
      match r2 with
      | BulkOk _ _ => print (MSampleIndexed (length (sample_df w)))
      | BulkRaise => print MSampleFailed
      end
  end.

(** ** The whole script; the result is the exit status of the process *)

Definition resolve (w : world) : M (option config) :=
  connect w 1 (ELASTICSEARCH_CONFIGS w) None.

Definition main (w : world) : M Z :=
  es <- resolve w ;;
  match es with
  | None => print MAllAttemptsFailed ;; ret 1
  | Some es =>
      init_schema w es ;;
      df_list <- fetch_all w symbols [] ;;
      df <- match df_list with
            | [] => print MNoStockData ;; ret (sample_data w)
            | _ :: _ => ret (concat df_list)
            end ;;
      print (MLoaded (length df)) ;;
      let df := dropna (add_season df) in
      load w es df ;;
      ret 0
  end.

(** ** Observations on a run *)

(** The document lists handed to [helpers.bulk], in call order. *)
Fixpoint submitted (tr : trace) : list (list doc) :=
  match tr with
  | [] => []
  | EBulk _ docs :: rest => docs :: submitted rest
  | _ :: rest => submitted rest
  end.

(** The symbols requested from the API, in call order. *)
Fixpoint requested (tr : trace) : list string :=
  match tr with
  | [] => []
  | EGet symbol :: rest => symbol :: requested rest
  | _ :: rest => requested rest
  end.

(** The frame that reaches the loader in a run that gets that far. *)
Definition gathered (w : world) : frame :=
  match fst (fetch_all w symbols []) with
  | [] => sample_data w
  | df_list => concat df_list
  end.

Definition final_frame (w : world) : frame := dropna (add_season (gathered w)).

(** The document of the one row of [sample_df]. *)
Definition smoke_doc (w : world) : doc :=
  mk_doc index_name
    [ ("@timestamp", JStr (isoformat (now_smoke_timestamp w)));
      ("symbol", JStr "AAPL");
      ("close", JFloat 150);
      ("volume", JInt 1000000);
      ("hour", JStr "14");
      ("month", JInt (dt_month (now_smoke_month w)));
      ("season", JStr "Fall");
      ("sentiment", JStr "Neutral") ].

(** The columns that the loader writes only when they hold a value. *)
Definition optional_fields : list string :=
  ["open"; "high"; "low"; "price_change"; "volume_change"; "price_per_volume"; "trip_date"].

(** What a document holds under the key of an optional numeric column:
    nothing, unless the row has the column and a value in it. *)
Definition written_float (cell : option float) : option jval :=
  match cell with
  | Some x => if notna x then Some (JFloat x) else None
  | None => None
  end.

Definition written_date (cell : option (option date)) : option jval :=
  match cell with
  | Some (Some d) => Some (JStr (str_of_date d))
  | _ => None
  end.


(** ** Concrete inputs used in the examples *)

(** Nanosecond instants, forward fill in [pct_change], "nan" as text. *)
Definition pandas_narrow : pandas := mk_pandas false true true.

(** Second-resolution instants, no forward fill, missing text kept. *)
Definition pandas_wide : pandas := mk_pandas true false false.

(** A row with nothing but the required cells and a month: no value under
    high, hour, season, sentiment and trip_date, no column for the rest. *)
Definition bare_row : row :=
  mk_row (Some (to_datetime 1714521600)) (Symbol "AAPL") None (Some nan) None
         105 1000 None None None (Some 5) (Some None) None None (Some None).

Definition bare_doc : doc :=
  mk_doc index_name
    [ ("@timestamp", JStr "2024-05-01T00:00:00");
      ("symbol", JStr "AAPL");
      ("close", JFloat 105);
      ("volume", JInt 1000);
      ("hour", JStr "0");
      ("month", JInt 5);
      ("season", JStr "Unknown");
      ("sentiment", JStr "Neutral") ].

Definition aapl_response : candles :=
  mk_candles (Some "ok") (Some [Some 1714521600]) (Some [100%float])
             (Some [110%float]) (Some [90%float]) (Some [105%float])
             (Some [1000%float]).

Definition no_data_response : candles :=
  mk_candles (Some "no_data") None None None None None None.

Definition aapl_doc : doc :=
  mk_doc index_name
    [ ("@timestamp", JStr "2024-05-01T00:00:00");
      ("symbol", JStr "AAPL");
      ("close", JFloat 105);
      ("volume", JInt 1000);
      ("hour", JStr "0");
      ("month", JInt 5);
      ("season", JStr "Spring");
      ("sentiment", JStr "Neutral");
      ("open", JFloat 100);
      ("high", JFloat 110);
      ("low", JFloat 90);
      ("price_change", JFloat 5);
      ("price_per_volume", JFloat 0.105);
      ("trip_date", JStr "2024-05-01") ].

(** The row that [aapl_response] becomes, before the season is added. *)
Definition aapl_row : row :=
  mk_row (Some (to_datetime 1714521600)) (Symbol "AAPL")
         (Some 100%float) (Some 110%float) (Some 90%float) 105 1000
         (Some 5%float) (Some nan) (Some "0") (Some 5)
         (Some (Some (mk_date 2024 5 1))) (Some 0.105%float)
         (Some "Neutral") None.




Definition some_draw : draw :=
  mk_draw 150 220 75 160 5000000 1.5 0.1 9 0.00005 0.

Definition some_instant : datetime := mk_datetime 1793709296 123.

(** The API answers for AAPL only; the cluster's behaviour is a parameter. *)
Definition mock_world (info : info_outcome) (first_bulk second_bulk : bulk_outcome)
  : world :=
  mk_world pandas_narrow None None None
           (fun _ => true) (fun _ => info) (fun _ _ => None) (fun _ _ => false)
           (fun n _ => match n with O => first_bulk | _ => second_bulk end)
           (fun symbol => if String.eqb symbol "AAPL" then Some aapl_response
                          else Some no_data_response)
           (fun _ _ => some_instant) (fun _ _ => some_draw)
           some_instant some_instant.

(** A healthy cluster. *)
Definition world_up : world := mock_world (InfoOk "8.11.0") (BulkOk 1 0) (BulkOk 1 0).

(** A cluster that answers the probes and refuses every bulk request. *)
Definition world_bulk_down : world := mock_world (InfoOk "8.11.0") BulkRaise BulkRaise.

(** Nothing listens on any endpoint: every probe and every bulk raises. *)
Definition world_down : world := mock_world InfoFailed BulkRaise BulkRaise.

(** A frame whose second row has no volume. *)
Definition frame_lacking_volume : frame :=
  [ mk_row (Some (to_datetime 1714521600)) (Symbol "AAPL") None None None
           105 1000 None None (Some "0") (Some 5) None None
           (Some "Neutral") None;
    mk_row (Some (to_datetime 1714608000)) (Symbol "AAPL") None None None
           108 nan None None (Some "0") (Some 5) None None
           (Some "Neutral") None ].

(** ** Further observations *)

(** The candidates a client was constructed for, in call order. *)
Fixpoint constructed (tr : trace) : list config :=
  match tr with
  | [] => []
  | ENewClient c :: rest => c :: constructed rest
  | _ :: rest => constructed rest
  end.

(** The indices asked to be created, in call order. *)
Fixpoint created (tr : trace) : list string :=
  match tr with
  | [] => []
  | ECreate _ index :: rest => index :: created rest
  | _ :: rest => created rest
  end.

(** The indices whose existence was asked for, in call order. *)
Fixpoint probed (tr : trace) : list string :=
  match tr with
  | [] => []
  | EExists _ index :: rest => index :: probed rest
  | _ :: rest => probed rest
  end.

(** How often the run slept. *)
Fixpoint sleeps (tr : trace) : nat :=
  match tr with
  | [] => O
  | ESleep :: rest => S (sleeps rest)
  | _ :: rest => sleeps rest
  end.

(** A candidate that the loop of lines 58-86 leaves through [break]: the
    client is constructed and either [info] returns, or it raises with
    "unauthorized" and the index probe returns. *)
Definition healthy (w : world) (c : config) : bool :=
  es_new w c &&
  match es_info w c with
  | InfoOk _ => true
  | InfoUnauthorized => is_some (es_exists w c "test")
  | InfoFailed => false
  end.

(** The keys that lines 232-243 always write, in their order. *)
Definition base_keys : list string :=
  ["@timestamp"; "symbol"; "close"; "volume"; "hour"; "month"; "season"; "sentiment"].

Definition keys (d : dict) : list string := map fst d.

(** Month and day as [civil_from_days] computes them from the day of the
    400-year era. *)
Definition month_day_of_doe (doe : Z) : Z * Z :=
  let yoe := (doe - doe / 1460 + doe / 36524 - doe / 146096) / 365 in
  let doy := doe - (365 * yoe + yoe / 4 - yoe / 100) in
  let mp := (5 * doy + 2) / 153 in
  let d := doy - (153 * mp + 2) / 5 + 1 in
  let m := if mp <? 10 then mp + 3 else mp - 9 in
  (m, d).

Definition month_day_in_range (doe : Z) : bool :=
  let (m, d) := month_day_of_doe doe in
  (1 <=? m) && (m <=? 12) && (1 <=? d) && (d <=? 31).

(** [check] holds on the [n] integers from [z] on. *)
Fixpoint all_from (check : Z -> bool) (n : nat) (z : Z) : bool :=
  match n with
  | O => true
  | S n' => check z && all_from check n' (z + 1)
  end.

(** A response whose volume drops to zero and recovers. *)
Definition zero_volume_response : candles :=
  mk_candles (Some "ok") (Some [Some 1714521600; Some 1714608000; Some 1714694400])
             (Some [100; 105; 104]%float) (Some [110; 112; 109]%float)
             (Some [90; 101; 99]%float) (Some [105; 108; 107]%float)
             (Some [100; 0; 150]%float).

(** The API gives nothing usable for any symbol. *)
Definition world_no_data : world :=
  mk_world pandas_wide None None None
           (fun _ => true) (fun _ => InfoOk "8.11.0") (fun _ _ => Some true)
           (fun _ _ => true)
           (fun _ docs => BulkOk (length docs) 0)
           (fun _ => Some no_data_response)
           (fun _ _ => some_instant) (fun _ _ => some_draw)
           some_instant some_instant.

(** Environment variables set, the first endpoint unreachable, the local
    one restricted to index operations. *)
Definition world_cloud : world :=
  mk_world pandas_wide
           (Some "https://es.example.com:9243") (Some "etl") (Some "secret")
           (fun _ => true)
           (fun c => if String.eqb (hosts c) "http://localhost:9200"
                     then InfoUnauthorized else InfoFailed)
           (fun _ _ => Some false)
           (fun _ _ => true)
           (fun _ docs => BulkOk (length docs) 0)
           (fun symbol => if String.eqb symbol "AAPL" then Some aapl_response
                          else None)
           (fun _ _ => some_instant) (fun _ _ => some_draw)
           some_instant some_instant.

(** No client can be constructed for any candidate. *)
Definition world_no_client : world :=
  mk_world pandas_narrow None None None
           (fun _ => false) (fun _ => InfoFailed) (fun _ _ => None) (fun _ _ => false)
           (fun _ _ => BulkRaise)
           (fun _ => Some aapl_response)
           (fun _ _ => some_instant) (fun _ _ => some_draw)
           some_instant some_instant.

(** The candle arrays of [data] are all there and as long as [t]. *)
Definition parallel_arrays (data : candles) (t : list (option Z)) : Prop :=
  exists o h l c v,
    resp_o data = Some o /\ resp_h data = Some h /\ resp_l data = Some l /\
    resp_c data = Some c /\ resp_v data = Some v /\
    length o = length t /\ length h = length t /\ length l = length t /\
    length c = length t /\ length v = length t.

(** An answer with status ok whose volume array is one short. *)
Definition ragged_response : candles :=
  mk_candles (Some "ok") (Some [Some 1714521600; Some 1714608000])
             (Some [100; 105]%float) (Some [110; 112]%float)
             (Some [90; 101]%float) (Some [105; 108]%float)
             (Some [100]%float).

(** An answer whose one timestamp is the first second of the year 10000. *)
Definition far_future_response : candles :=
  mk_candles (Some "ok") (Some [Some 253402300800]) (Some [100%float])
             (Some [110%float]) (Some [90%float]) (Some [105%float])
             (Some [1000%float]).

(** The rows of a frame that carry a given symbol. *)
Definition rows_of (symbol : string) (df : frame) : frame :=
  filter (fun r => match r_symbol r with
                   | Symbol s => String.eqb s symbol
                   | _ => false
                   end) df.

Definition season_names : list string := ["Winter"; "Spring"; "Summer"; "Fall"].

(** A row whose volume is infinite. *)
Definition overflow_row : row :=
  mk_row (Some (to_datetime 1714521600)) (Symbol "AAPL") None None None
         105 infinity None None (Some "0") (Some 5) None None
         (Some "Neutral") (Some (Some "Spring")).

(** The frame of [zero_volume_response]. *)
Definition zero_volume_frame : frame :=
  match fetch_symbol pandas_narrow "AAPL" (Some zero_volume_response) with
  | Fetched df => df
  | _ => []
  end.

(** The clients that bulk calls were made on, in call order. *)
Fixpoint bulk_clients (tr : trace) : list config :=
  match tr with
  | [] => []
  | EBulk c _ :: rest => c :: bulk_clients rest
  | _ :: rest => bulk_clients rest
  end.

(** A row whose volume, 1000.5, is not a whole number. *)
Definition fractional_volume_row : row :=
  mk_row (Some (to_datetime 1714521600)) (Symbol "AAPL") None None None
         105 1000.5 None None (Some "0") (Some 5) None None
         (Some "Neutral") (Some (Some "Spring")).


(** A response whose first volume is the negative zero. *)
Definition negative_zero_response : candles :=
  mk_candles (Some "ok") (Some [Some 1714521600; Some 1714608000])
             (Some [100; 105]%float) (Some [110; 112]%float)
             (Some [90; 101]%float) (Some [105; 108]%float)
             (Some [-0; 5]%float).

(** The frame of [negative_zero_response]. *)
Definition negative_zero_frame : frame :=
  match fetch_symbol pandas_wide "AAPL" (Some negative_zero_response) with
  | Fetched df => df
  | _ => []
  end.
(** * Properties *)

(** ** Season *)

(** C3: the season is a function of the month number alone: Winter for 12, 1
    and 2, Spring for 3 to 5, Summer for 6 to 8, Fall for 9 to 11, and
    Unknown for every other integer, 13 among them. *)
Theorem get_season_table (month : Z) :
  ((month = 12 \/ month = 1 \/ month = 2) -> get_season month = "Winter") /\
  ((month = 3 \/ month = 4 \/ month = 5) -> get_season month = "Spring") /\
  ((month = 6 \/ month = 7 \/ month = 8) -> get_season month = "Summer") /\
  ((month = 9 \/ month = 10 \/ month = 11) -> get_season month = "Fall") /\
  ((month < 1 \/ 12 < month) -> get_season month = "Unknown") /\
  get_season 13 = "Unknown".
Proof.
  repeat split; try (intros [->|[->| ->]]; reflexivity).
  intros Hm. unfold get_season; cbn [existsb].
  repeat match goal with
         | |- context [Z.eqb month ?k] =>
             replace (Z.eqb month k) with false by (symmetry; apply Z.eqb_neq; lia)
         end.
  reflexivity.
Qed.

Lemma get_season_table_witness :
  get_season 4 = "Spring" /\ get_season 0 = "Unknown".
Proof.
  pose proof (get_season_table 4) as (_ & Hspring & _).
  pose proof (get_season_table 0) as (_ & _ & _ & _ & Hunknown & _).
  split; [apply Hspring; right; left; reflexivity | apply Hunknown; left; lia].
Defined.

(** ** Arithmetic of the cells *)

Lemma SFcompare_refl (x : spec_float) :
  x <> S754_nan -> SFcompare x x = Some Eq.
Proof.
  destruct x as [s|s| |s m e]; cbn; intros H; try congruence.
  - destruct s; reflexivity.
  - destruct s; rewrite Z.compare_refl, Pos.compare_cont_refl; reflexivity.
Qed.

Lemma Prim2SF_nan (x : float) : Prim2SF x = S754_nan -> x = nan.
Proof.
  intros H. apply Prim2SF_inj. rewrite H. reflexivity.
Qed.

(** A cell is missing exactly when it is the one NaN of the model. *)
Lemma is_nan_iff (x : float) : PrimFloat.is_nan x = true <-> x = nan.
Proof.
  split.
  - unfold PrimFloat.is_nan. rewrite FloatAxioms.eqb_spec. unfold SFeqb. intros H.
    apply Prim2SF_nan.
    destruct (Prim2SF x) eqn:E; try reflexivity;
      rewrite SFcompare_refl in H by discriminate; discriminate.
  - intros ->. reflexivity.
Qed.

Lemma notna_false_iff (x : float) : notna x = false <-> x = nan.
Proof.
  unfold notna. rewrite negb_false_iff. apply is_nan_iff.
Qed.

Lemma notna_true_iff (x : float) : notna x = true <-> x <> nan.
Proof.
  pose proof (notna_false_iff x) as H.
  destruct (notna x); split; intros; try congruence.
  - intros E. apply H in E. discriminate.
  - exfalso. apply H0. apply H. reflexivity.
Qed.

Lemma div_nan_r (x : float) : (x / nan)%float = nan.
Proof.
  apply Prim2SF_inj. rewrite FloatAxioms.div_spec.
  change (Prim2SF nan) with S754_nan. destruct (Prim2SF x); reflexivity.
Qed.

Lemma div_nan_l (y : float) : (nan / y)%float = nan.
Proof.
  apply Prim2SF_inj. rewrite FloatAxioms.div_spec. reflexivity.
Qed.

Lemma sub_nan_l (y : float) : (nan - y)%float = nan.
Proof.
  apply Prim2SF_inj. rewrite FloatAxioms.sub_spec. reflexivity.
Qed.


(** A cell equals 0 exactly when it is one of the two zeros. *)
Lemma eqb_zero_iff (x : float) :
  (x =? 0)%float = true <-> exists sign, Prim2SF x = S754_zero sign.
Proof.
  rewrite FloatAxioms.eqb_spec. change (Prim2SF 0) with (S754_zero false).
  unfold SFeqb. destruct (Prim2SF x) as [s|s| |s m e]; cbn; split;
    try discriminate; try (intros [s' H]; discriminate).
  - intros _. exists s. reflexivity.
  - reflexivity.
  - destruct s; discriminate.
  - destruct s; discriminate.
Qed.

Lemma eqb_zero_not_nan (x : float) : (x =? 0)%float = true -> x <> nan.
Proof.
  intros H E. subst. discriminate.
Qed.

(** ** Columns *)


Lemma map2_nth {A B C : Type} (f : A -> B -> C) (xs : list A) (ys : list B)
      (i : nat) (dx : A) (dy : B) (d : C) :
  (i < length xs)%nat -> (i < length ys)%nat ->
  nth i (map2 f xs ys) d = f (nth i xs dx) (nth i ys dy).
Proof.
  revert ys i; induction xs as [|x xs IH]; intros [|y ys] [|i]; cbn; intros;
    try lia; auto.
  apply IH; lia.
Qed.

Lemma map_nth_lt {A B : Type} (f : A -> B) (xs : list A) (i : nat) (d : B) (dx : A) :
  (i < length xs)%nat -> nth i (map f xs) d = f (nth i xs dx).
Proof.
  revert i; induction xs as [|x xs IH]; intros [|i]; cbn; intros; try lia; auto.
  apply IH; lia.
Qed.

Lemma nth_error_map_seq {A : Type} (f : nat -> A) (n i : nat) (a : A) :
  nth_error (map f (seq 0 n)) i = Some a -> (i < n)%nat /\ a = f i.
Proof.
  intros H.
  assert (Hi : (i < n)%nat).
  { assert (Hlen : (i < length (map f (seq 0 n)))%nat)
      by (apply nth_error_Some; congruence).
    rewrite length_map, length_seq in Hlen. exact Hlen. }
  split; [exact Hi|].
  rewrite nth_error_map, nth_error_seq in H.
  apply Nat.ltb_lt in Hi. rewrite Hi in H. cbn in H. congruence.
Qed.


Lemma shift_length (data : list float) : length (shift data) = length data.
Proof.
  destruct data as [|a data]; [reflexivity|].
  cbn [shift length]. rewrite removelast_firstn_len, length_firstn.
  cbn [length]. lia.
Qed.

(** Row [S i] of [data.shift(1)] is row [i] of [data]. *)
Lemma shift_nth (data : list float) (i : nat) :
  (S i < length data)%nat -> nth (S i) (shift data) nan = nth i data nan.
Proof.
  destruct data as [|a data]; cbn [length]; intros Hi; [lia|].
  cbn [shift nth]. revert a i Hi.
  induction data as [|b data IH]; intros a i Hi; cbn [length] in Hi; [lia|].
  change (removelast (a :: b :: data)) with (a :: removelast (b :: data)).
  destruct i as [|i]; [reflexivity|].
  cbn [nth]. apply IH. lia.
Qed.

Lemma ffill_from_length (last : float) (data : list float) :
  length (ffill_from last data) = length data.
Proof.
  revert last; induction data as [|x data IH]; intros last; cbn; auto.
Qed.

(** The forward fill leaves a value that is there as it is. *)
Lemma ffill_from_nth_present (last : float) (data : list float) (i : nat) :
  nth i data nan <> nan -> nth i (ffill_from last data) nan = nth i data nan.
Proof.
  revert last i; induction data as [|x data IH]; intros last [|i] H; cbn in *;
    try congruence.
  - destruct (PrimFloat.is_nan x) eqn:E; [|reflexivity].
    apply is_nan_iff in E. congruence.
  - apply IH. exact H.
Qed.

(** Without a missing value the forward fill changes nothing. *)
Lemma ffill_from_all_present (last : float) (data : list float) :
  (forall x, In x data -> x <> nan) -> ffill_from last data = data.
Proof.
  revert last; induction data as [|x data IH]; intros last H; [reflexivity|].
  cbn [ffill_from].
  destruct (PrimFloat.is_nan x) eqn:E.
  - apply is_nan_iff in E. exfalso. apply (H x); [left; reflexivity | exact E].
  - f_equal. apply IH. intros y Hy. apply H. right. exact Hy.
Qed.


Lemma pct_change_first (pad : bool) (data : list float) :
  nth 0 (pct_change pad data) nan = nan.
Proof.
  unfold pct_change.
  destruct (if pad then ffill data else data) as [|x rest]; [reflexivity|].
  cbn [shift map2 nth]. rewrite div_nan_r. apply sub_nan_l.
Qed.

(** A later row of [pct_change], on the column that is divided. *)
Lemma pct_change_later (pad : bool) (data : list float) (i : nat) :
  (S i < length data)%nat ->
  nth (S i) (pct_change pad data) nan
  = (let data := if pad then ffill data else data in
     nth (S i) data nan / nth i data nan - 1)%float.
Proof.
  intros Hi. unfold pct_change. cbv zeta.
  set (filled := if pad then ffill data else data).
  assert (Hlen : length filled = length data)
    by (subst filled; destruct pad; [apply ffill_from_length | reflexivity]).
  rewrite (map2_nth _ _ _ _ nan nan) by (rewrite ?shift_length; lia).
  rewrite shift_nth by lia. reflexivity.
Qed.

(** A later row of [pct_change] when the two volumes are there, or pandas
    does not fill. *)
Lemma pct_change_later_present (pad : bool) (data : list float) (i : nat) :
  (S i < length data)%nat ->
  pad = false \/ (nth (S i) data nan <> nan /\ nth i data nan <> nan) ->
  nth (S i) (pct_change pad data) nan
  = (nth (S i) data nan / nth i data nan - 1)%float.
Proof.
  intros Hi H. rewrite pct_change_later by exact Hi. cbv zeta.
  destruct pad; [|reflexivity].
  destruct H as [H|[Hx Hp]]; [discriminate|].
  unfold ffill. rewrite !ffill_from_nth_present by assumption. reflexivity.
Qed.


Lemma price_per_volume_nth (close volume : list float) (i : nat) :
  (i < length close)%nat -> (i < length volume)%nat ->
  nth i (price_per_volume close volume) nan
  = (if (nth i volume nan =? 0)%float then nan
     else nth i close nan / nth i volume nan)%float.
Proof.
  intros Hc Hv. unfold price_per_volume, replace_zero_nan.
  rewrite (map2_nth PrimFloat.div _ _ i nan nan) by (rewrite ?length_map; assumption).
  rewrite (map_nth_lt _ volume i nan nan Hv).
  destruct (nth i volume nan =? 0)%float; [apply div_nan_r | reflexivity].
Qed.



(** ** The frame of one symbol *)

Lemma same_length_true {A B : Type} (xs : list A) (ys : list B) :
  same_length xs ys = true <-> length xs = length ys.
Proof.
  unfold same_length. apply Nat.eqb_eq.
Qed.

(** [build_frame] returns a frame exactly when every instant can be
    represented and the six arrays have one length. *)
Lemma build_frame_some (lib : pandas) (symbol : string) (t : list (option Z))
      (o h l c v : list float) :
  (exists df, build_frame lib symbol t o h l c v = Some df) <->
  forallb (representable lib) t = true /\
  length o = length t /\ length h = length t /\ length l = length t /\
  length c = length t /\ length v = length t.
Proof.
  unfold build_frame. rewrite <- !same_length_true.
  destruct (forallb (representable lib) t), (same_length o t), (same_length h t),
    (same_length l t), (same_length c t), (same_length v t); cbn [andb];
    split; try (intros [df H]; discriminate); try (intros H; repeat split; reflexivity);
    try (intros (? & ? & ? & ? & ? & ?); discriminate); try (intros _; eexists; reflexivity).
Qed.

Lemma build_frame_length (lib : pandas) (symbol : string) (t : list (option Z))
      (o h l c v : list float) (df : frame) :
  build_frame lib symbol t o h l c v = Some df -> length df = length t.
Proof.
  unfold build_frame.
  destruct (forallb _ t && _ && _ && _ && _ && _); [|discriminate].
  intros Hdf. injection Hdf as <-. rewrite length_map, length_seq. reflexivity.
Qed.

(** What [build_frame] puts in row [i]. *)
Lemma build_frame_row (lib : pandas) (symbol : string) (t : list (option Z))
      (o h l c v : list float) (df : frame) (i : nat) (r : row) :
  build_frame lib symbol t o h l c v = Some df ->
  nth_error df i = Some r ->
  (i < length t)%nat /\
  r = mk_row (option_map to_datetime (nth i t None)) (Symbol symbol)
        (Some (nth i o nan)) (Some (nth i h nan)) (Some (nth i l nan))
        (nth i c nan) (nth i v nan)
        (Some (nth i (price_change c o) nan))
        (Some (nth i (pct_change (pads_pct_change lib) v) nan))
        (hour_text lib (existsb is_none t) (option_map to_datetime (nth i t None)))
        (option_map dt_month (option_map to_datetime (nth i t None)))
        (Some (option_map dt_date (option_map to_datetime (nth i t None))))
        (Some (nth i (price_per_volume c v) nan))
        (Some "Neutral") None.
Proof.
  unfold build_frame.
  destruct (forallb _ t && _ && _ && _ && _ && _); [|discriminate].
  intros Hdf Hr. injection Hdf as <-.
  apply nth_error_map_seq in Hr. destruct Hr as [Hi ->].
  split; [exact Hi|].
  rewrite (map_nth_lt (option_map to_datetime) t i None None Hi).
  assert (Hts : (i < length (map (option_map to_datetime) t))%nat)
    by (rewrite length_map; exact Hi).
  rewrite (map_nth_lt (hour_text lib (existsb is_none t)) _ i None None Hts).
  rewrite (map_nth_lt (option_map dt_month) _ i None None Hts).
  rewrite (map_nth_lt (option_map dt_date) _ i None None Hts).
  rewrite (map_nth_lt (option_map to_datetime) t i None None Hi).
  reflexivity.
Qed.


(** A symbol is fetched only through line 159 and a successful
    [pd.DataFrame]. *)
Lemma fetch_symbol_fetched (lib : pandas) (symbol : string)
      (response : option candles) (df : frame) :
  fetch_symbol lib symbol response = Fetched df ->
  exists data t o h l c v,
    response = Some data /\ resp_s data = Some "ok" /\
    resp_t data = Some t /\ t <> [] /\
    resp_o data = Some o /\ resp_h data = Some h /\ resp_l data = Some l /\
    resp_c data = Some c /\ resp_v data = Some v /\
    build_frame lib symbol t o h l c v = Some df.
Proof.
  unfold fetch_symbol. destruct response as [data|]; [|discriminate].
  destruct (resp_s data) as [s|] eqn:Hs; cbn [andb]; [|discriminate].
  destruct (String.eqb_spec s "ok") as [->|]; cbn [andb]; [|discriminate].
  destruct (resp_t data) as [[|t0 t]|] eqn:Ht; try discriminate.
  destruct (resp_o data) as [o|] eqn:Ho; [|discriminate].
  destruct (resp_h data) as [h|] eqn:Hh; [|discriminate].
  destruct (resp_l data) as [l|] eqn:Hl; [|discriminate].
  destruct (resp_c data) as [c|] eqn:Hc; [|discriminate].
  destruct (resp_v data) as [v|] eqn:Hv; [|discriminate].
  destruct (build_frame lib symbol (t0 :: t) o h l c v) as [df'|] eqn:Hb; [|discriminate].
  intros H. inversion H; subst df'.
  exists data, (t0 :: t), o, h, l, c, v. repeat split; auto. discriminate.
Qed.

(** Past line 159 the outcome is the one of [build_frame]. *)
Lemma fetch_symbol_ok (lib : pandas) (symbol : string) (data : candles)
      (t : list (option Z)) (o h l c v : list float) :
  resp_s data = Some "ok" -> resp_t data = Some t -> t <> [] ->
  resp_o data = Some o -> resp_h data = Some h -> resp_l data = Some l ->
  resp_c data = Some c -> resp_v data = Some v ->
  fetch_symbol lib symbol (Some data)
  = match build_frame lib symbol t o h l c v with
    | Some df => Fetched df
    | None => FetchError
    end.
Proof.
  intros Hs Ht Hne Ho Hh Hl Hc Hv.
  unfold fetch_symbol. rewrite Hs, Ht, Ho, Hh, Hl, Hc, Hv.
  destruct t; [congruence|]. reflexivity.
Qed.

(** A well-formed answer (status ok, a non-empty [t] of representable
    instants, parallel arrays) is always turned into a frame. *)
Lemma fetch_symbol_succeeds (lib : pandas) (symbol : string) (data : candles)
      (t : list (option Z)) (o h l c v : list float) :
  resp_s data = Some "ok" -> resp_t data = Some t -> t <> [] ->
  resp_o data = Some o -> resp_h data = Some h -> resp_l data = Some l ->
  resp_c data = Some c -> resp_v data = Some v ->
  length o = length t -> length h = length t -> length l = length t ->
  length c = length t -> length v = length t ->
  forallb (representable lib) t = true ->
  exists df, fetch_symbol lib symbol (Some data) = Fetched df /\ length df = length t.
Proof.
  intros Hs Ht Hne Ho Hh Hl Hc Hv Lo Lh Ll Lc Lv Hrep.
  destruct (proj2 (build_frame_some lib symbol t o h l c v)) as [df Hdf];
    [repeat split; assumption|].
  exists df. split; [|eapply build_frame_length; eassumption].
  rewrite (fetch_symbol_ok lib symbol data t o h l c v) by assumption.
  rewrite Hdf. reflexivity.
Qed.



(** ** Derived columns *)

Lemma nth_error_map_nth {A B : Type} (f : A -> B) (xs : list A) (ys : list B)
      (i : nat) (x : A) (d : B) :
  map f xs = ys -> nth_error xs i = Some x -> nth i ys d = f x.
Proof.
  intros <- H. rewrite (nth_error_nth (map f xs) i d (x := f x)); [reflexivity|].
  rewrite nth_error_map, H. reflexivity.
Qed.




(** C5: every fetched row has price_per_volume = close / volume, the
    binary64 quotient, when its volume is not zero, and NaN when it is a
    zero of either sign: the zero is replaced before the division, so there
    is no division by zero and no infinity from it, and a zero volume does
    not make the construction of the frame raise.  close 150 and volume
    1000000 give 0.00015. *)
Theorem price_per_volume_of_rows (lib : pandas) (symbol : string)
        (response : option candles) (df : frame) (r : row) :
  fetch_symbol lib symbol response = Fetched df -> In r df ->
  ((r_volume r =? 0)%float = true -> r_price_per_volume r = Some nan) /\
  ((r_volume r =? 0)%float = false ->
   r_price_per_volume r = Some (r_close r / r_volume r)%float) /\
  fetch_symbol lib "AAPL"
    (Some (mk_candles (Some "ok") (Some [Some 1714521600]) (Some [148%float])
                      (Some [151%float]) (Some [147%float]) (Some [150%float])
                      (Some [0%float])))
  = Fetched [ mk_row (Some (to_datetime 1714521600)) (Symbol "AAPL")
                     (Some 148%float) (Some 151%float) (Some 147%float)
                     150 0 (Some 2%float) (Some nan) (Some "0")
                     (Some 5) (Some (Some (mk_date 2024 5 1))) (Some nan)
                     (Some "Neutral") None ] /\
  price_per_volume [150%float] [1000000%float] = [0.00015%float].
Proof.
  intros H Hin.
  destruct (fetch_symbol_fetched _ _ _ _ H)
    as (data & t & o & h & l & c & v & _ & _ & _ & _ & _ & _ & _ & _ & _ & Hb).
  assert (Hsome : exists df, build_frame lib symbol t o h l c v = Some df)
    by (exists df; exact Hb).
  apply build_frame_some in Hsome. destruct Hsome as (_ & _ & _ & _ & Hlc & Hlv).
  apply In_nth_error in Hin. destruct Hin as [i Hi].
  destruct (build_frame_row _ _ _ _ _ _ _ _ _ _ _ Hb Hi) as [Hlt ->].
  cbn [r_volume r_close r_price_per_volume].
  rewrite price_per_volume_nth by lia.
  split; [|split; [|split]].
  - intros ->. reflexivity.
  - intros ->. reflexivity.
  - destruct lib as [[|] [|] text]; reflexivity.
  - reflexivity.
Qed.

Lemma price_per_volume_of_rows_witness :
  ((r_volume aapl_row =? 0)%float = true -> r_price_per_volume aapl_row = Some nan) /\
  ((r_volume aapl_row =? 0)%float = false ->
   r_price_per_volume aapl_row = Some (r_close aapl_row / r_volume aapl_row)%float) /\
  (r_volume aapl_row =? 0)%float = false.
Proof.
  destruct (price_per_volume_of_rows pandas_narrow "AAPL" (Some aapl_response)
              [aapl_row] aapl_row eq_refl (or_introl eq_refl))
    as (Hzero & Hquot & _).
  split; [exact Hzero|]. split; [exact Hquot|]. reflexivity.
Defined.

(** ** Documents *)

Lemma dict_get_set_same (k : string) (v : jval) (d : dict) :
  dict_get k (dict_set k v d) = Some v.
Proof.
  induction d as [|[k1 v1] d IH]; cbn.
  - rewrite String.eqb_refl. reflexivity.
  - destruct (String.eqb k k1) eqn:E; cbn; rewrite E; auto.
Qed.

Lemma dict_get_set_other (k k' : string) (v : jval) (d : dict) :
  String.eqb k k' = false -> dict_get k (dict_set k' v d) = dict_get k d.
Proof.
  intros Hk. induction d as [|[k1 v1] d IH]; cbn.
  - rewrite Hk. reflexivity.
  - destruct (String.eqb_spec k' k1) as [->|]; cbn.
    + rewrite Hk. reflexivity.
    + rewrite IH. reflexivity.
Qed.

Lemma get_set_float_same (key : string) (cell : option float) (src : dict) :
  dict_get key (set_float key cell src)
  = match cell with
    | Some x => if notna x then Some (JFloat x) else dict_get key src
    | None => dict_get key src
    end.
Proof.
  unfold set_float. destruct cell as [x|]; [|reflexivity].
  destruct (notna x); [apply dict_get_set_same | reflexivity].
Qed.

Lemma get_set_float_other (k key : string) (cell : option float) (src : dict) :
  String.eqb k key = false -> dict_get k (set_float key cell src) = dict_get k src.
Proof.
  intros Hk. unfold set_float. destruct cell as [x|]; [|reflexivity].
  destruct (notna x); [apply dict_get_set_other; exact Hk | reflexivity].
Qed.

Lemma get_set_date_same (key : string) (cell : option (option date)) (src : dict) :
  dict_get key (set_date key cell src)
  = match cell with
    | Some (Some d) => Some (JStr (str_of_date d))
    | _ => dict_get key src
    end.
Proof.
  unfold set_date. destruct cell as [[d|]|]; try reflexivity.
  apply dict_get_set_same.
Qed.

Lemma get_set_date_other (k key : string) (cell : option (option date)) (src : dict) :
  String.eqb k key = false -> dict_get k (set_date key cell src) = dict_get k src.
Proof.
  intros Hk. unfold set_date. destruct cell as [[d|]|]; try reflexivity.
  apply dict_get_set_other; exact Hk.
Qed.

(** Looks a constant key up through the assignments of [action]. *)
Ltac lookup :=
  repeat first
    [ rewrite get_set_float_other by reflexivity
    | rewrite get_set_date_other by reflexivity
    | rewrite get_set_float_same
    | rewrite get_set_date_same ];
  cbn [dict_get String.eqb Ascii.eqb Bool.eqb].

(** [int] raises on the three values that are not numbers, and on nothing
    else. *)
Lemma py_int_none (x : float) :
  py_int x = None <-> x = nan \/ x = infinity \/ x = neg_infinity.
Proof.
  unfold py_int. split.
  - destruct (Prim2SF x) as [s|[|]| |s m e] eqn:E; try discriminate; intros _.
    + right; right. apply Prim2SF_inj. rewrite E. reflexivity.
    + right; left. apply Prim2SF_inj. rewrite E. reflexivity.
    + left. apply Prim2SF_inj. rewrite E. reflexivity.
  - intros [-> | [-> | ->]]; reflexivity.
Qed.

(** The volume of a document: null for a missing volume, an integer for a
    number; an infinite volume has none. *)
Lemma volume_written (x : float) :
  (if notna x then option_map JInt (py_int x) else Some JNull) = None
  <-> x = infinity \/ x = neg_infinity.
Proof.
  destruct (notna x) eqn:E.
  - apply notna_true_iff in E. split.
    + intros H. destruct (py_int x) eqn:Hx; [discriminate|].
      apply py_int_none in Hx. destruct Hx as [Hx|Hx]; [contradiction | exact Hx].
    + intros H. assert (Hx : py_int x = None) by (apply py_int_none; right; exact H).
      rewrite Hx. reflexivity.
  - apply notna_false_iff in E. subst x. split; [discriminate|].
    intros [H|H]; apply (f_equal Prim2SF) in H; discriminate.
Qed.

(** The shape of the document of a row that does not raise. *)
Lemma action_source (r : row) (d : doc) :
  action r = Some d ->
  exists volume season,
    (if notna (r_volume r) then option_map JInt (py_int (r_volume r)) else Some JNull)
    = Some volume /\
    r_season r = Some season /\
    _index d = index_name /\
    _source d =
      set_date "trip_date" (r_trip_date r)
        (set_float "price_per_volume" (r_price_per_volume r)
           (set_float "volume_change" (r_volume_change r)
              (set_float "price_change" (r_price_change r)
                 (set_float "low" (r_low r)
                    (set_float "high" (r_high r)
                       (set_float "open" (r_open r)
        [ ("@timestamp", match r_timestamp r with
                         | Some t => JStr (isoformat t)
                         | None => JNull
                         end);
          ("symbol", JStr (py_str (r_symbol r)));
          ("close", if notna (r_close r) then JFloat (r_close r) else JNull);
          ("volume", volume);
          ("hour", or_default (r_hour r) "0");
          ("month", match r_month r with Some m => JInt m | None => JNull end);
          ("season", or_default season "Unknown");
          ("sentiment", or_default (r_sentiment r) "Neutral") ])))))).
Proof.
  unfold action.
  destruct (if notna (r_volume r) then option_map JInt (py_int (r_volume r)) else Some JNull)
    as [volume|]; [|discriminate].
  destruct (r_season r) as [season|]; [|discriminate].
  intros H. injection H as <-. exists volume, season. repeat split.
Qed.

(** C10: the document of a row always has hour, season and sentiment as
    text: the value of the row, or "0", "Unknown" and "Neutral" where the
    row has none. *)
Theorem defaults_for_missing_text (r : row) (d : doc) :
  action r = Some d ->
  dict_get "hour" (_source d)
  = Some (JStr (match r_hour r with Some h => h | None => "0" end)) /\
  (exists season,
      r_season r = Some season /\
      dict_get "season" (_source d)
      = Some (JStr (match season with Some s => s | None => "Unknown" end))) /\
  dict_get "sentiment" (_source d)
  = Some (JStr (match r_sentiment r with Some s => s | None => "Neutral" end)).
Proof.
  intros H. destruct (action_source r d H) as (volume & season & _ & Hs & _ & ->).
  split; [|split].
  - lookup. unfold or_default. destruct (r_hour r); reflexivity.
  - exists season. split; [exact Hs|]. lookup. unfold or_default.
    destruct season; reflexivity.
  - lookup. unfold or_default. destruct (r_sentiment r); reflexivity.
Qed.

Lemma defaults_for_missing_text_witness :
  dict_get "hour" (_source bare_doc) = Some (JStr "0") /\
  (exists season,
      r_season bare_row = Some season /\
      dict_get "season" (_source bare_doc)
      = Some (JStr (match season with Some s => s | None => "Unknown" end))) /\
  dict_get "sentiment" (_source bare_doc) = Some (JStr "Neutral").
Proof.
  apply (defaults_for_missing_text bare_row bare_doc). reflexivity.
Defined.

(** The builder raises on a row exactly when the frame has no season column
    or the volume of the row is infinite. *)
Lemma action_none_iff (r : row) :
  action r = None <->
  r_season r = None \/ r_volume r = infinity \/ r_volume r = neg_infinity.
Proof.
  pose proof (volume_written (r_volume r)) as Hv. unfold action.
  destruct (if notna (r_volume r) then option_map JInt (py_int (r_volume r))
            else Some JNull) as [volume|].
  - destruct (r_season r) as [season|]; split; try discriminate; try tauto.
    intros [H|H]; [discriminate|]. apply Hv in H. discriminate.
  - split; [|reflexivity]. intros _. right. apply Hv. reflexivity.
Qed.

Lemma action_defined (r : row) :
  r_season r <> None -> r_volume r <> infinity -> r_volume r <> neg_infinity ->
  exists d, action r = Some d.
Proof.
  intros Hs Hp Hn. destruct (action r) as [d|] eqn:E; [exists d; reflexivity|].
  apply action_none_iff in E. tauto.
Qed.

(** The optional keys of a document, one by one. *)
Lemma action_optional (r : row) (d : doc) :
  action r = Some d ->
  dict_get "open" (_source d) = written_float (r_open r) /\
  dict_get "high" (_source d) = written_float (r_high r) /\
  dict_get "low" (_source d) = written_float (r_low r) /\
  dict_get "price_change" (_source d) = written_float (r_price_change r) /\
  dict_get "volume_change" (_source d) = written_float (r_volume_change r) /\
  dict_get "price_per_volume" (_source d) = written_float (r_price_per_volume r) /\
  dict_get "trip_date" (_source d) = written_date (r_trip_date r).
Proof.
  intros H. destruct (action_source r d H) as (volume & season & _ & _ & _ & ->).
  repeat split; lookup; reflexivity.
Qed.

Lemma written_float_cases (cell : option float) :
  ((cell = None \/ cell = Some nan) -> written_float cell = None) /\
  (forall x, cell = Some x -> x <> nan -> written_float cell = Some (JFloat x)) /\
  written_float cell <> Some JNull.
Proof.
  repeat split.
  - intros [-> | ->]; reflexivity.
  - intros x -> Hx. cbn. apply notna_true_iff in Hx. rewrite Hx. reflexivity.
  - destruct cell as [x|]; cbn; [|discriminate]. destruct (notna x); discriminate.
Qed.

(** C6: in the document of a row, each of open, high, low, price_change,
    volume_change and price_per_volume is left out when the row has no value
    for it (no such column, or NaN) and is the value otherwise; trip_date is
    left out when the row has no date and is its text otherwise; none of
    these keys is ever present with a null. *)
Theorem optional_fields_omitted (r : row) (d : doc) :
  action r = Some d ->
  (forall key cell,
      In (key, cell)
         [ ("open", r_open r); ("high", r_high r); ("low", r_low r);
           ("price_change", r_price_change r);
           ("volume_change", r_volume_change r);
           ("price_per_volume", r_price_per_volume r) ] ->
      ((cell = None \/ cell = Some nan) -> dict_get key (_source d) = None) /\
      (forall x, cell = Some x -> x <> nan ->
                 dict_get key (_source d) = Some (JFloat x))) /\
  ((r_trip_date r = None \/ r_trip_date r = Some None) ->
   dict_get "trip_date" (_source d) = None) /\
  (forall day, r_trip_date r = Some (Some day) ->
               dict_get "trip_date" (_source d) = Some (JStr (str_of_date day))) /\
  (forall key, In key optional_fields -> dict_get key (_source d) <> Some JNull).
Proof.
  intros H.
  destruct (action_optional r d H) as (Ho & Hh & Hl & Hpc & Hvc & Hppv & Htd).
  split; [|split; [|split]].
  - intros key cell Hin. cbn in Hin.
    destruct (written_float_cases cell) as (Hnone & Hsome & _).
    repeat (destruct Hin as [E | Hin];
            [inversion E; subst key cell; split; [intros Hc | intros x Hc Hx];
             first [rewrite Ho | rewrite Hh | rewrite Hl | rewrite Hpc
                   | rewrite Hvc | rewrite Hppv]; auto|]).
    contradiction.
  - intros [E | E]; rewrite Htd, E; reflexivity.
  - intros day E. rewrite Htd, E; reflexivity.
  - intros key Hin. cbn in Hin.
    repeat (destruct Hin as [<- | Hin];
            [first [rewrite Ho | rewrite Hh | rewrite Hl | rewrite Hpc
                   | rewrite Hvc | rewrite Hppv | rewrite Htd];
             try apply written_float_cases|]);
      try contradiction.
    destruct (r_trip_date r) as [[day|]|]; cbn; discriminate.
Qed.

Lemma optional_fields_omitted_witness :
  dict_get "high" (_source bare_doc) = None /\
  dict_get "open" (_source bare_doc) = None /\
  dict_get "trip_date" (_source bare_doc) = None.
Proof.
  pose proof (optional_fields_omitted bare_row bare_doc eq_refl) as (Hf & Hd & _ & _).
  split; [|split].
  - apply (Hf "high" (Some nan)); [right; left; reflexivity | right; reflexivity].
  - apply (Hf "open" None); [left; reflexivity | left; reflexivity].
  - apply Hd. right; reflexivity.
Defined.

(** ** Traces *)

Lemma bind_fst {A B : Type} (m : M A) (k : A -> M B) :
  fst (bind m k) = fst (k (fst m)).
Proof.
  unfold bind. destruct m as [a tr]; cbn. destruct (k a); reflexivity.
Qed.

Lemma bind_snd {A B : Type} (m : M A) (k : A -> M B) :
  snd (bind m k) = (snd m ++ snd (k (fst m)))%list.
Proof.
  unfold bind. destruct m as [a tr]; cbn. destruct (k a); reflexivity.
Qed.

Lemma submitted_app (tr tr' : trace) :
  submitted (tr ++ tr')%list = (submitted tr ++ submitted tr')%list.
Proof.
  induction tr as [|e tr IH]; [reflexivity|].
  destruct e; cbn; rewrite IH; reflexivity.
Qed.

Lemma requested_app (tr tr' : trace) :
  requested (tr ++ tr')%list = (requested tr ++ requested tr')%list.
Proof.
  induction tr as [|e tr IH]; [reflexivity|].
  destruct e; cbn; rewrite IH; reflexivity.
Qed.

(** Unfolds the trace of a sequence of steps. *)
Ltac steps :=
  repeat first [ rewrite bind_snd | rewrite bind_fst
               | rewrite submitted_app | rewrite requested_app ];
  cbn [tell print ret fst snd submitted requested app].

Section Stages.

Variable w : world.

(** The resolver talks to the cluster only: no request to the API and no
    bulk call. *)
Lemma connect_quiet (configs : list config) (i : nat) (es : option config) :
  submitted (snd (connect w i configs es)) = [] /\
  requested (snd (connect w i configs es)) = [].
Proof.
  revert i es; induction configs as [|c rest IH]; intros i es; cbn [connect].
  - split; reflexivity.
  - steps. destruct (es_new w c); steps.
    + destruct (es_info w c); steps; auto.
      destruct (es_exists w c "test"); steps; auto.
    + auto.
Qed.

(** The resolver leaves [es] unset only if no client could be constructed at
    all; a client whose probes fail stays bound. *)
Lemma connect_none (configs : list config) (i : nat) (es : option config) :
  fst (connect w i configs es) = None ->
  es = None /\ forall c, In c configs -> es_new w c = false.
Proof.
  revert i es; induction configs as [|c rest IH]; intros i es; cbn [connect].
  - cbn. intros ->. split; [reflexivity | contradiction].
  - steps. destruct (es_new w c) eqn:Hnew; steps.
    + destruct (es_info w c); steps; try discriminate.
      * destruct (es_exists w c "test"); steps; try discriminate.
        intros H. apply IH in H. destruct H; discriminate.
      * intros H. apply IH in H. destruct H; discriminate.
    + intros H. apply IH in H. destruct H as [-> Hrest].
      split; [reflexivity|]. intros c' [<- | Hin]; auto.
Qed.

Lemma init_schema_quiet (es : config) :
  submitted (snd (init_schema w es)) = [] /\
  requested (snd (init_schema w es)) = [].
Proof.
  unfold init_schema. steps.
  destruct (es_exists w es index_name) as [[|]|]; steps; auto.
  destruct (es_create w es index_name); steps; auto.
Qed.

Lemma fetch_all_trace (todo : list string) (df_list : list frame) :
  submitted (snd (fetch_all w todo df_list)) = [] /\
  requested (snd (fetch_all w todo df_list)) = todo.
Proof.
  revert df_list; induction todo as [|symbol rest IH]; intros df_list; cbn [fetch_all].
  - split; reflexivity.
  - steps.
    destruct (fetch_symbol (lib w) symbol (api_get w symbol)); steps;
      destruct (IH (df_list ++ [df])%list) as [-> ->] ||
      destruct (IH df_list) as [-> ->]; split; reflexivity.
Qed.

(** The frames collected by the loop: one per symbol whose fetch succeeds,
    in the order of [symbols]. *)
Lemma fetch_all_frames (todo : list string) (df_list : list frame) :
  fst (fetch_all w todo df_list)
  = (df_list ++ flat_map (fun symbol =>
                            match fetch_symbol (lib w) symbol (api_get w symbol) with
                            | Fetched df => [df]
                            | _ => []
                            end) todo)%list.
Proof.
  revert df_list; induction todo as [|symbol rest IH]; intros df_list; cbn [fetch_all].
  - cbn. rewrite app_nil_r. reflexivity.
  - steps. cbn [flat_map].
    destruct (fetch_symbol (lib w) symbol (api_get w symbol)); steps; rewrite IH.
    + rewrite <- app_assoc. reflexivity.
    + reflexivity.
    + reflexivity.
Qed.

(** The loader: one bulk call with the documents of the frame, and, only if
    it raises, one more with the documents of [sample_df]. *)
Lemma load_submitted (es : config) (df : frame) :
  submitted (snd (load w es df))
  = generate_actions df ::
    match es_bulk w 0 (generate_actions df) with
    | BulkRaise => [generate_actions (sample_df w)]
    | BulkOk _ _ => []
    end.
Proof.
  unfold load, bulk. steps.
  destruct (es_bulk w 0 (generate_actions df)) as [n failed|]; steps.
  - destruct (Nat.eqb failed 0); reflexivity.
  - destruct (es_bulk w 1 (generate_actions (sample_df w))); reflexivity.
Qed.

Lemma sample_df_action : generate_actions (sample_df w) = [smoke_doc w].
Proof.
  reflexivity.
Qed.

Lemma load_requested (es : config) (df : frame) :
  requested (snd (load w es df)) = [].
Proof.
  unfold load, bulk. steps.
  destruct (es_bulk w 0 (generate_actions df)) as [n failed|]; steps.
  - destruct (Nat.eqb failed 0); reflexivity.
  - destruct (es_bulk w 1 (generate_actions (sample_df w))); reflexivity.
Qed.

(** A run that has a client goes through every stage and ends normally. *)
Lemma main_connected (es : config) :
  fst (resolve w) = Some es ->
  fst (main w) = 0 /\
  requested (snd (main w)) = symbols /\
  submitted (snd (main w)) = submitted (snd (load w es (final_frame w))) /\
  exists tr, snd (main w) = (tr ++ snd (load w es (final_frame w)))%list.
Proof.
  intros Hes. unfold main, final_frame, gathered.
  destruct (connect_quiet (ELASTICSEARCH_CONFIGS w) 1 None) as [Hs Hr].
  destruct (init_schema_quiet es) as [Hs' Hr'].
  destruct (fetch_all_trace symbols []) as [Hs'' Hr''].
  fold (resolve w) in Hs, Hr.
  repeat split.
  - steps. rewrite Hes. steps. reflexivity.
  - steps. rewrite Hes. steps. rewrite Hr, Hr', Hr'', load_requested.
    destruct (fst (fetch_all w symbols [])); steps; rewrite app_nil_r; reflexivity.
  - steps. rewrite Hes. steps. rewrite Hs, Hs', Hs''.
    destruct (fst (fetch_all w symbols [])); steps; rewrite app_nil_r; reflexivity.
  - rewrite bind_snd, Hes. cbv beta iota. repeat rewrite ?bind_snd, ?bind_fst.
    cbn [ret snd]. rewrite app_nil_r.
    destruct (fst (fetch_all w symbols [])); rewrite ?bind_fst; cbn [ret fst];
      rewrite !app_assoc; eexists; reflexivity.
Qed.

(** A run without a client stops with status 1 before any request. *)
Lemma main_unconnected :
  fst (resolve w) = None ->
  fst (main w) = 1 /\ requested (snd (main w)) = [] /\ submitted (snd (main w)) = [].
Proof.
  intros Hes. unfold main.
  destruct (connect_quiet (ELASTICSEARCH_CONFIGS w) 1 None) as [Hs Hr].
  fold (resolve w) in Hs, Hr.
  repeat split; steps; rewrite Hes; steps; rewrite ?Hs, ?Hr; reflexivity.
Qed.

End Stages.

(** ** Retention *)

Lemma generate_actions_In (df : frame) (d : doc) :
  In d (generate_actions df) <-> exists r, In r df /\ action r = Some d.
Proof.
  induction df as [|r df IH]; cbn.
  - split; [contradiction | intros (r & [] & _)].
  - destruct (action r) as [d'|] eqn:Hr; cbn; rewrite IH; split.
    + intros [<- | (r' & Hin & Hd)]; [exists r | exists r']; auto.
    + intros (r' & [<- | Hin] & Hd); [left; congruence | right; exists r'; auto].
    + intros (r' & Hin & Hd); exists r'; auto.
    + intros (r' & [<- | Hin] & Hd); [congruence | exists r'; auto].
Qed.


Lemma complete_true (r : row) :
  complete r = true <->
  r_timestamp r <> None /\ (exists s, r_symbol r = Symbol s) /\
  r_close r <> nan /\ r_volume r <> nan.
Proof.
  unfold complete. rewrite !andb_true_iff, !notna_true_iff.
  destruct (r_timestamp r) as [t|], (r_symbol r) as [text| |]; cbn; split.
  all: try (intros [[[Ht Hs] Hc] Hv]; discriminate).
  all: try (intros (Ht & [s Hs] & Hc & Hv); congruence).
  - intros [[_ Hc] Hv]. repeat split; try assumption; try discriminate.
    exists text. reflexivity.
  - intros (_ & _ & Hc & Hv). repeat split; assumption.
Qed.

(** A row misses the cut of line 223 exactly when one of the four cells is
    missing. *)
Lemma complete_false (r : row) :
  complete r = false <->
  r_timestamp r = None \/ r_symbol r = SymbolNone \/ r_symbol r = SymbolNaN \/
  r_close r = nan \/ r_volume r = nan.
Proof.
  unfold complete. rewrite !andb_false_iff, !notna_false_iff.
  destruct (r_timestamp r), (r_symbol r); cbn; split; intros H;
    try tauto; intuition discriminate.
Qed.

(** The required keys of the document of a complete row hold values. *)
Lemma action_required (r : row) (d : doc) :
  action r = Some d -> complete r = true ->
  (exists s, dict_get "@timestamp" (_source d) = Some (JStr s)) /\
  (exists s, r_symbol r = Symbol s /\ dict_get "symbol" (_source d) = Some (JStr s)) /\
  dict_get "close" (_source d) = Some (JFloat (r_close r)) /\
  (exists z, dict_get "volume" (_source d) = Some (JInt z)).
Proof.
  intros H Hc. destruct (action_source r d H) as (volume & season & Hv & _ & _ & ->).
  apply complete_true in Hc. destruct Hc as (Ht & [s Hs] & Hcl & Hvol).
  apply notna_true_iff in Hcl, Hvol.
  repeat split; lookup.
  - destruct (r_timestamp r) as [t|]; [eexists; reflexivity | congruence].
  - exists s. rewrite Hs. split; reflexivity.
  - rewrite Hcl. reflexivity.
  - rewrite Hvol in Hv. destruct (py_int (r_volume r)) as [z|]; [|discriminate].
    injection Hv as <-. exists z. reflexivity.
Qed.

(** C2: a row whose timestamp, symbol, close or volume is missing does not
    survive line 223; every document of the retained frame comes from a row
    of the frame that has all four, and carries an integer volume; and the
    documents a run submits first are exactly those of the retained frame. *)
Theorem incomplete_rows_excluded (df : frame) :
  (forall r,
      r_timestamp r = None \/ r_symbol r = SymbolNone \/ r_symbol r = SymbolNaN \/
      r_close r = nan \/ r_volume r = nan ->
      ~ In r (dropna df)) /\
  (forall d,
      In d (generate_actions (dropna df)) ->
      exists r, In r df /\ action r = Some d /\
        r_timestamp r <> None /\ (exists s, r_symbol r = Symbol s) /\
        r_close r <> nan /\ r_volume r <> nan /\
        exists z, dict_get "volume" (_source d) = Some (JInt z)) /\
  (forall w es,
      fst (resolve w) = Some es -> df = add_season (gathered w) ->
      hd_error (submitted (snd (main w))) = Some (generate_actions (dropna df))).
Proof.
  split; [|split].
  - intros r Hmiss Hin. unfold dropna in Hin. apply filter_In in Hin.
    destruct Hin as [_ Hc]. apply complete_false in Hmiss. congruence.
  - intros d Hd. apply generate_actions_In in Hd. destruct Hd as (r & Hin & Hr).
    unfold dropna in Hin. apply filter_In in Hin. destruct Hin as [Hin Hc].
    exists r. split; [exact Hin|]. split; [exact Hr|].
    destruct (action_required r d Hr Hc) as (_ & _ & _ & Hz).
    apply complete_true in Hc. tauto.
  - intros w es Hes ->.
    destruct (main_connected w es Hes) as (_ & _ & -> & _).
    rewrite load_submitted. reflexivity.
Qed.

Lemma incomplete_rows_excluded_witness :
  ~ In (set_season (nth 1 frame_lacking_volume bare_row))
       (dropna (add_season frame_lacking_volume)).
Proof.
  apply (incomplete_rows_excluded (add_season frame_lacking_volume)).
  right; right; right; right; reflexivity.
Defined.

(** The frame with a row lacking volume yields the document of the other row
    alone. *)
Example row_lacking_volume_not_submitted :
  generate_actions (dropna (add_season frame_lacking_volume))
  = [ mk_doc index_name
        [ ("@timestamp", JStr "2024-05-01T00:00:00");
          ("symbol", JStr "AAPL");
          ("close", JFloat 105);
          ("volume", JInt 1000);
          ("hour", JStr "0");
          ("month", JInt 5);
          ("season", JStr "Spring");
          ("sentiment", JStr "Neutral") ] ].
Proof.
  reflexivity.
Qed.

(** ** Whole runs *)

Lemma aapl_fetch (lib : pandas) :
  fetch_symbol lib "AAPL" (Some aapl_response) = Fetched [aapl_row].
Proof.
  destruct lib as [[|] [|] [|]]; reflexivity.
Qed.

Lemma no_frame (lib : pandas) (symbol : string) (response : option candles) :
  (forall df, fetch_symbol lib symbol response <> Fetched df) ->
  match fetch_symbol lib symbol response with
  | Fetched df => [df]
  | _ => []
  end = [].
Proof.
  intros H. destruct (fetch_symbol lib symbol response) as [df| |]; try reflexivity.
  exfalso. apply (H df). reflexivity.
Qed.

(** C1: in a run that has a client, when the API answers the mocked body
    for AAPL and gives no frame for any other symbol, the first bulk call
    carries exactly one document: symbol AAPL, close 105.0, volume 1000,
    price_change 5.0, price_per_volume 0.105, month 5, season Spring; it is
    the only call unless that call raises. *)
Theorem aapl_end_to_end (w : world) (es : config) :
  fst (resolve w) = Some es ->
  api_get w "AAPL" = Some aapl_response ->
  (forall symbol df,
      In symbol symbols -> symbol <> "AAPL" ->
      fetch_symbol (lib w) symbol (api_get w symbol) <> Fetched df) ->
  hd_error (submitted (snd (main w))) = Some [aapl_doc] /\
  (es_bulk w 0 [aapl_doc] <> BulkRaise -> submitted (snd (main w)) = [[aapl_doc]]) /\
  dict_get "symbol" (_source aapl_doc) = Some (JStr "AAPL") /\
  dict_get "close" (_source aapl_doc) = Some (JFloat 105) /\
  dict_get "volume" (_source aapl_doc) = Some (JInt 1000) /\
  dict_get "price_change" (_source aapl_doc) = Some (JFloat 5) /\
  dict_get "price_per_volume" (_source aapl_doc) = Some (JFloat 0.105) /\
  dict_get "month" (_source aapl_doc) = Some (JInt 5) /\
  dict_get "season" (_source aapl_doc) = Some (JStr "Spring").
Proof.
  intros Hes Haapl Hothers.
  assert (Hframe : final_frame w = [set_season aapl_row]).
  { unfold final_frame, gathered. rewrite fetch_all_frames.
    cbn [symbols flat_map app].
    rewrite Haapl, aapl_fetch.
    rewrite !no_frame
      by (intros df; apply Hothers; [cbn; tauto | discriminate]).
    reflexivity. }
  destruct (main_connected w es Hes) as (_ & _ & Hsub & _).
  rewrite Hsub, load_submitted, Hframe.
  change (generate_actions [set_season aapl_row]) with [aapl_doc].
  repeat split.
  intros Hok. destruct (es_bulk w 0 [aapl_doc]); [reflexivity | congruence].
Qed.

Lemma aapl_end_to_end_witness :
  hd_error (submitted (snd (main world_up))) = Some [aapl_doc] /\
  submitted (snd (main world_up)) = [[aapl_doc]].
Proof.
  pose proof (aapl_end_to_end world_up local_config) as H.
  destruct H as (H1 & H2 & _).
  - reflexivity.
  - reflexivity.
  - intros symbol df Hin Hne.
    cbn in Hin. destruct Hin as [<- | [<- | [<- | [<- | [<- | []]]]]];
      try congruence; discriminate.
  - split; [exact H1 | apply H2; discriminate].
Defined.
(** C8: in a run that has a client, when the bulk call raises, exactly one
    more bulk call is made, and it carries exactly one document, that of the
    synthetic row; when that call raises too, the run reports it and ends
    there, with no further call. *)
Theorem fallback_once (w : world) (es : config) :
  fst (resolve w) = Some es ->
  es_bulk w 0 (generate_actions (final_frame w)) = BulkRaise ->
  submitted (snd (main w)) = [generate_actions (final_frame w); [smoke_doc w]] /\
  (es_bulk w 1 [smoke_doc w] = BulkRaise ->
   exists tr, snd (main w)
              = (tr ++ [EPrint MIndexingError; EBulk es [smoke_doc w];
                        EPrint MSampleFailed])%list) /\
  fst (main w) = 0.
Proof.
  intros Hes Hraise.
  destruct (main_connected w es Hes) as (Hexit & _ & Hsub & tr & Htr).
  split; [|split; [|exact Hexit]].
  - rewrite Hsub, load_submitted, Hraise, sample_df_action. reflexivity.
  - intros Hraise2. rewrite Htr. unfold load, bulk. steps.
    rewrite Hraise. steps. rewrite sample_df_action, Hraise2. steps.
    exists (tr ++ [EPrint MIndexing; EBulk es (generate_actions (final_frame w))])%list.
    rewrite <- app_assoc. reflexivity.
Qed.

Lemma fallback_once_witness :
  submitted (snd (main world_bulk_down)) = [[aapl_doc]; [smoke_doc world_bulk_down]] /\
  (exists tr, snd (main world_bulk_down)
              = (tr ++ [EPrint MIndexingError;
                        EBulk local_config [smoke_doc world_bulk_down];
                        EPrint MSampleFailed])%list) /\
  fst (main world_bulk_down) = 0.
Proof.
  destruct (fallback_once world_bulk_down local_config) as (H1 & H2 & H3).
  - reflexivity.
  - reflexivity.
  - split; [exact H1 | split; [apply H2; reflexivity | exact H3]].
Defined.

(** The process ends with status 1 only when no client could be constructed
    for any candidate; the outcome of the probes plays no part in it. *)
Lemma exit_one_only_without_client (w : world) :
  fst (main w) = 1 ->
  forall c, In c (ELASTICSEARCH_CONFIGS w) -> es_new w c = false.
Proof.
  intros Hexit.
  destruct (fst (resolve w)) as [es|] eqn:Hes.
  - destruct (main_connected w es Hes) as (H0 & _). congruence.
  - unfold resolve in Hes. apply connect_none in Hes. tauto.
Qed.

(** C7 asks that a run whose every candidate fails its health check stop
    with a non-zero status before any fetch or load.  The script does not:
    in [world_down] every candidate fails the check, the client stays bound
    all the same, and the run ends with status 0 after requesting all five
    symbols and making two bulk calls. *)
Theorem failed_health_checks_do_not_stop_the_run :
  (forall c, es_info world_down c = InfoFailed) /\
  fst (resolve world_down) = Some local_config /\
  fst (main world_down) = 0 /\
  requested (snd (main world_down)) = symbols /\
  submitted (snd (main world_down)) = [[aapl_doc]; [smoke_doc world_down]].
Proof.
  repeat split.
Qed.

(** * Further properties of the stages *)

Lemma constructed_app (tr tr' : trace) :
  constructed (tr ++ tr')%list = (constructed tr ++ constructed tr')%list.
Proof.
  induction tr as [|e tr IH]; [reflexivity|].
  destruct e; cbn; rewrite IH; reflexivity.
Qed.

Lemma created_app (tr tr' : trace) :
  created (tr ++ tr')%list = (created tr ++ created tr')%list.
Proof.
  induction tr as [|e tr IH]; [reflexivity|].
  destruct e; cbn; rewrite IH; reflexivity.
Qed.

Lemma probed_app (tr tr' : trace) :
  probed (tr ++ tr')%list = (probed tr ++ probed tr')%list.
Proof.
  induction tr as [|e tr IH]; [reflexivity|].
  destruct e; cbn; rewrite IH; reflexivity.
Qed.

Lemma sleeps_app (tr tr' : trace) :
  sleeps (tr ++ tr')%list = (sleeps tr + sleeps tr')%nat.
Proof.
  induction tr as [|e tr IH]; [reflexivity|].
  destruct e; cbn; rewrite IH; reflexivity.
Qed.

(** Unfolds a sequence of steps under any of the observations. *)
Ltac unroll :=
  repeat first [ rewrite bind_snd | rewrite bind_fst
               | rewrite submitted_app | rewrite requested_app
               | rewrite constructed_app | rewrite created_app
               | rewrite probed_app | rewrite sleeps_app ];
  cbn [tell print ret fst snd submitted requested constructed created probed
       sleeps app Nat.add].

(** ** Connection resolver *)

Lemma healthy_false (w : world) (c : config) :
  healthy w c = false ->
  es_new w c = false \/
  (es_new w c = true /\
   (es_info w c = InfoFailed \/
    (es_info w c = InfoUnauthorized /\ es_exists w c "test" = None))).
Proof.
  unfold healthy. destruct (es_new w c); [|auto]. cbn [andb].
  destruct (es_info w c); try discriminate; [|auto].
  destruct (es_exists w c "test"); [discriminate | auto].
Qed.

(** X1: The loop adopts the first candidate that passes its probe: the ones
    before it are each tried once, in order, and the ones after it are never
    contacted. *)
Theorem first_healthy_candidate_is_adopted
        (w : world) (pre post : list config) (c : config) (i : nat) (es : option config) :
  (forall c', In c' pre -> healthy w c' = false) ->
  healthy w c = true ->
  fst (connect w i (pre ++ c :: post) es) = Some c /\
  constructed (snd (connect w i (pre ++ c :: post) es)) = (pre ++ [c])%list.
Proof.
  revert i es. induction pre as [|c' pre IH]; intros i es Hpre Hc.
  - cbn [app connect]. unfold healthy in Hc.
    destruct (es_new w c); [|discriminate]. cbn [andb] in Hc.
    destruct (es_info w c); try discriminate.
    + unroll. split; reflexivity.
    + destruct (es_exists w c "test"); [|discriminate].
      unroll. split; reflexivity.
  - assert (Hc' : healthy w c' = false) by (apply Hpre; left; reflexivity).
    assert (Hrest : forall c'', In c'' pre -> healthy w c'' = false)
      by (intros c'' Hin; apply Hpre; right; exact Hin).
    cbn [app connect].
    destruct (healthy_false w c' Hc') as [Hnew | [Hnew [Hinfo | [Hinfo Hex]]]];
      rewrite Hnew; try rewrite Hinfo; try rewrite Hex; unroll;
      match goal with
      | |- context [connect w ?j _ ?e] => destruct (IH j e Hrest Hc) as [-> ->]
      end; split; reflexivity.
Qed.

Lemma first_healthy_candidate_is_adopted_witness :
  fst (resolve world_cloud) = Some local_config /\
  constructed (snd (resolve world_cloud))
  = [ mk_config "https://es.example.com:9243" (Some ("etl", "secret")) true 30
                "Environment config (https://es.example.com:9243)";
      local_config ].
Proof.
  apply (first_healthy_candidate_is_adopted world_cloud
           [ mk_config "https://es.example.com:9243" (Some ("etl", "secret")) true 30
                       "Environment config (https://es.example.com:9243)" ]
           [] local_config 1 None).
  - intros c' [<- | []]. reflexivity.
  - reflexivity.
Defined.

(** X2: When no candidate passes its probe, every candidate is tried exactly
    once, in order, and [es] is left at the last client that could be
    constructed (at its initial value if there is none). *)
Theorem no_healthy_candidate (w : world) (configs : list config) (i : nat)
        (es : option config) :
  (forall c, In c configs -> healthy w c = false) ->
  constructed (snd (connect w i configs es)) = configs /\
  fst (connect w i configs es)
  = fold_left (fun bound c => if es_new w c then Some c else bound) configs es.
Proof.
  revert i es. induction configs as [|c rest IH]; intros i es Hall.
  - split; reflexivity.
  - assert (Hc : healthy w c = false) by (apply Hall; left; reflexivity).
    assert (Hrest : forall c', In c' rest -> healthy w c' = false)
      by (intros c' Hin; apply Hall; right; exact Hin).
    cbn [connect fold_left].
    destruct (healthy_false w c Hc) as [Hnew | [Hnew [Hinfo | [Hinfo Hex]]]];
      rewrite Hnew; try rewrite Hinfo; try rewrite Hex; unroll;
      match goal with
      | |- context [connect w ?j _ ?e] => destruct (IH j e Hrest) as [-> ->]
      end; split; reflexivity.
Qed.

Lemma no_healthy_candidate_witness :
  constructed (snd (resolve world_down)) = [local_config] /\
  fst (resolve world_down) = Some local_config.
Proof.
  apply (no_healthy_candidate world_down [local_config] 1 None).
  intros c [<- | []]. reflexivity.
Defined.

(** X3: The list of candidates is never empty and ends with the local fallback;
    the environment comes first, and only when host, user name and password
    are all set and not empty; its certificates are verified exactly for an
    https address. *)
Theorem candidates_of_environment (w : world) :
  last (ELASTICSEARCH_CONFIGS w) local_config = local_config /\
  (truthy (env_host w) && truthy (env_username w) && truthy (env_password w) = false ->
   ELASTICSEARCH_CONFIGS w = [local_config]) /\
  (truthy (env_host w) && truthy (env_username w) && truthy (env_password w) = true ->
   exists host user password,
     env_host w = Some host /\ env_username w = Some user /\
     env_password w = Some password /\
     ELASTICSEARCH_CONFIGS w
     = [ mk_config host (Some (user, password)) (prefix "https://" host) 30
                   ("Environment config (" ++ host ++ ")");
         local_config ]).
Proof.
  unfold ELASTICSEARCH_CONFIGS.
  destruct (env_host w) as [host|], (env_username w) as [user|],
           (env_password w) as [password|];
    cbn [truthy andb]; try (repeat split; intros; try reflexivity; discriminate).
  - destruct (negb (host =? "")%string && negb (user =? "")%string
              && negb (password =? "")%string) eqn:E.
    + repeat split; try discriminate. intros _.
      exists host, user, password. repeat split.
    + repeat split; discriminate.
  - repeat split; try reflexivity. rewrite andb_false_r. discriminate.
  - repeat split; try reflexivity. rewrite andb_false_r. discriminate.
  - repeat split; try reflexivity. rewrite andb_false_r. discriminate.
Qed.

Lemma candidates_of_environment_witness :
  ELASTICSEARCH_CONFIGS world_up = [local_config] /\
  exists host user password,
    env_host world_cloud = Some host /\ env_username world_cloud = Some user /\
    env_password world_cloud = Some password /\
    ELASTICSEARCH_CONFIGS world_cloud
    = [ mk_config host (Some (user, password)) (prefix "https://" host) 30
                  ("Environment config (" ++ host ++ ")");
        local_config ].
Proof.
  split.
  - apply (candidates_of_environment world_up). reflexivity.
  - apply (candidates_of_environment world_cloud). reflexivity.
Defined.

(** ** The stages, one observation at a time *)

Section StageObservations.

Variable w : world.

Lemma connect_creates_nothing (configs : list config) (i : nat) (es : option config) :
  created (snd (connect w i configs es)) = [] /\
  sleeps (snd (connect w i configs es)) = O.
Proof.
  revert i es; induction configs as [|c rest IH]; intros i es; cbn [connect].
  - split; reflexivity.
  - unroll. destruct (es_new w c); unroll.
    + destruct (es_info w c); unroll; auto.
      destruct (es_exists w c "test"); unroll; auto.
    + auto.
Qed.

Lemma connect_no_client (configs : list config) (i : nat) :
  (forall c, In c configs -> es_new w c = false) ->
  fst (connect w i configs None) = None /\
  probed (snd (connect w i configs None)) = [].
Proof.
  revert i; induction configs as [|c rest IH]; intros i Hall; cbn [connect].
  - split; reflexivity.
  - unroll. rewrite (Hall c) by (left; reflexivity). unroll.
    apply IH. intros c' Hin. apply Hall. right; exact Hin.
Qed.

Lemma init_schema_calls (es : config) :
  constructed (snd (init_schema w es)) = [] /\
  sleeps (snd (init_schema w es)) = O /\
  probed (snd (init_schema w es)) = [index_name] /\
  created (snd (init_schema w es))
  = match es_exists w es index_name with
    | Some false => [index_name]
    | _ => []
    end.
Proof.
  unfold init_schema. unroll.
  destruct (es_exists w es index_name) as [[|]|]; unroll; auto.
  destruct (es_create w es index_name); unroll; auto.
Qed.

Lemma fetch_all_calls (todo : list string) (df_list : list frame) :
  constructed (snd (fetch_all w todo df_list)) = [] /\
  created (snd (fetch_all w todo df_list)) = [] /\
  probed (snd (fetch_all w todo df_list)) = [] /\
  sleeps (snd (fetch_all w todo df_list)) = length todo.
Proof.
  revert df_list; induction todo as [|symbol rest IH]; intros df_list; cbn [fetch_all].
  - repeat split.
  - unroll.
    destruct (fetch_symbol (lib w) symbol (api_get w symbol)); unroll;
      match goal with
      | |- context [fetch_all w rest ?l] => destruct (IH l) as (-> & -> & -> & ->)
      end; repeat split.
Qed.

Lemma load_calls (es : config) (df : frame) :
  constructed (snd (load w es df)) = [] /\
  created (snd (load w es df)) = [] /\
  probed (snd (load w es df)) = [] /\
  sleeps (snd (load w es df)) = O.
Proof.
  unfold load, bulk. unroll.
  destruct (es_bulk w 0 (generate_actions df)) as [n failed|]; unroll.
  - destruct (Nat.eqb failed 0); repeat split.
  - destruct (es_bulk w 1 (generate_actions (sample_df w))); repeat split.
Qed.

(** The trace of a run that has a client, stage by stage. *)
Lemma main_trace (es : config) :
  fst (resolve w) = Some es ->
  snd (main w)
  = (snd (resolve w) ++ snd (init_schema w es) ++ snd (fetch_all w symbols [])
     ++ match fst (fetch_all w symbols []) with
        | [] => [EPrint MNoStockData]
        | _ :: _ => []
        end
     ++ [EPrint (MLoaded (length (gathered w)))]
     ++ snd (load w es (final_frame w)))%list.
Proof.
  intros Hes. unfold main, final_frame, gathered.
  rewrite bind_snd, Hes. cbv beta iota. repeat rewrite ?bind_snd, ?bind_fst.
  cbn [ret snd]. rewrite app_nil_r.
  destruct (fst (fetch_all w symbols [])); rewrite ?bind_fst, ?bind_snd;
    cbn [ret fst snd print tell app]; reflexivity.
Qed.

Lemma main_trace_unconnected :
  fst (resolve w) = None ->
  snd (main w) = (snd (resolve w) ++ [EPrint MAllAttemptsFailed])%list.
Proof.
  intros Hes. unfold main. rewrite bind_snd, Hes. reflexivity.
Qed.

End StageObservations.

(** ** Exit status *)

(** X4: The process ends with status 0 or 1.  It is 1 exactly when the client
    constructor raises for every candidate, and then the run has asked the
    cluster and the API for nothing: no index probe, no index creation, no
    candle request, no sleep and no bulk call. *)
Theorem exit_status (w : world) :
  (fst (main w) = 0 \/ fst (main w) = 1) /\
  (fst (main w) = 1 <->
   forall c, In c (ELASTICSEARCH_CONFIGS w) -> es_new w c = false) /\
  (fst (main w) = 1 ->
   probed (snd (main w)) = [] /\ created (snd (main w)) = [] /\
   requested (snd (main w)) = [] /\ sleeps (snd (main w)) = O /\
   submitted (snd (main w)) = []).
Proof.
  assert (Hnone : (forall c, In c (ELASTICSEARCH_CONFIGS w) -> es_new w c = false) ->
                  fst (resolve w) = None).
  { intros Hall. apply (connect_no_client w _ 1 Hall). }
  destruct (fst (resolve w)) as [es|] eqn:Hes.
  - destruct (main_connected w es Hes) as (H0 & _).
    split; [left; exact H0|]. split; [split|].
    + congruence.
    + intros Hall. apply Hnone in Hall. congruence.
    + congruence.
  - destruct (main_unconnected w Hes) as (H1 & Hreq & Hsub).
    assert (Hall : forall c, In c (ELASTICSEARCH_CONFIGS w) -> es_new w c = false).
    { unfold resolve in Hes. apply connect_none in Hes. tauto. }
    split; [right; exact H1|]. split; [tauto|].
    intros _. rewrite (main_trace_unconnected w Hes). unroll.
    destruct (connect_no_client w _ 1 Hall) as [_ Hp].
    destruct (connect_creates_nothing w (ELASTICSEARCH_CONFIGS w) 1 None) as [Hc Hsl].
    destruct (connect_quiet w (ELASTICSEARCH_CONFIGS w) 1 None) as [Hs Hr].
    unfold resolve. rewrite Hp, Hc, Hsl, Hs, Hr. repeat split.
Qed.

(** ** Schema initializer *)

(** X5: A run that has a client asks once whether the index exists, after the
    probes of the resolver, and creates it exactly when the answer is no;
    an answer yes, or an exception, creates nothing.  Whatever the outcome,
    also when the creation fails, the run goes on to request every symbol
    and ends with status 0. *)
Theorem index_created_only_when_absent (w : world) (es : config) :
  fst (resolve w) = Some es ->
  created (snd (main w))
  = match es_exists w es index_name with
    | Some false => [index_name]
    | _ => []
    end /\
  probed (snd (main w)) = (probed (snd (resolve w)) ++ [index_name])%list /\
  requested (snd (main w)) = symbols /\
  fst (main w) = 0.
Proof.
  intros Hes.
  destruct (main_connected w es Hes) as (H0 & Hreq & _).
  destruct (connect_creates_nothing w (ELASTICSEARCH_CONFIGS w) 1 None) as [Hc _].
  destruct (init_schema_calls w es) as (_ & _ & Hp & Hcr).
  destruct (fetch_all_calls w symbols []) as (_ & Hfc & Hfp & _).
  destruct (load_calls w es (final_frame w)) as (_ & Hlc & Hlp & _).
  fold (resolve w) in Hc.
  repeat split; try assumption.
  - rewrite (main_trace w es Hes). unroll.
    rewrite Hc, Hcr, Hfc, Hlc.
    destruct (fst (fetch_all w symbols [])); cbn [created app];
      rewrite ?app_nil_r; reflexivity.
  - rewrite (main_trace w es Hes). unroll.
    rewrite Hp, Hfp, Hlp.
    destruct (fst (fetch_all w symbols [])); cbn [probed app]; reflexivity.
Qed.

Lemma index_created_only_when_absent_witness :
  created (snd (main world_cloud)) = [index_name] /\
  probed (snd (main world_cloud)) = ["test"; index_name] /\
  requested (snd (main world_cloud)) = symbols /\
  fst (main world_cloud) = 0.
Proof.
  apply (index_created_only_when_absent world_cloud local_config). reflexivity.
Defined.

Lemma exit_status_witness :
  fst (main world_no_client) = 1 /\
  probed (snd (main world_no_client)) = [] /\
  created (snd (main world_no_client)) = [] /\
  requested (snd (main world_no_client)) = [] /\
  sleeps (snd (main world_no_client)) = O /\
  submitted (snd (main world_no_client)) = [].
Proof.
  destruct (exit_status world_no_client) as (_ & Hiff & Hquiet).
  assert (H1 : fst (main world_no_client) = 1)
    by (apply Hiff; intros c _; reflexivity).
  split; [exact H1 | apply Hquiet; exact H1].
Defined.

(** ** Data fetcher *)

(** X6: The loop requests every symbol of its list exactly once, in order, and
    sleeps once per symbol, whatever the API answers; it makes no bulk
    call. *)
Theorem fetch_loop_requests (w : world) (todo : list string) (df_list : list frame) :
  requested (snd (fetch_all w todo df_list)) = todo /\
  sleeps (snd (fetch_all w todo df_list)) = length todo /\
  submitted (snd (fetch_all w todo df_list)) = [].
Proof.
  destruct (fetch_all_trace w todo df_list) as [Hs Hr].
  destruct (fetch_all_calls w todo df_list) as (_ & _ & _ & Hsl).
  auto.
Qed.

(** X7: The loop keeps the frames collected so far and appends the frame of
    each symbol whose fetch succeeds, in the order of the symbols; a symbol
    that fails adds nothing and takes nothing away. *)
Theorem fetch_loop_frames (w : world) (todo : list string) (df_list : list frame) :
  fst (fetch_all w todo df_list)
  = (df_list ++ flat_map (fun symbol =>
                            match fetch_symbol (lib w) symbol (api_get w symbol) with
                            | Fetched df => [df]
                            | _ => []
                            end) todo)%list /\
  (forall df,
      In df (fst (fetch_all w todo [])) <->
      exists symbol, In symbol todo /\
                     fetch_symbol (lib w) symbol (api_get w symbol) = Fetched df) /\
  (length (fst (fetch_all w todo [])) <= length todo)%nat.
Proof.
  split; [apply fetch_all_frames|]. rewrite fetch_all_frames. cbn [app]. split.
  - intros df. rewrite in_flat_map. split.
    + intros (symbol & Hin & Hdf). exists symbol. split; [exact Hin|].
      destruct (fetch_symbol (lib w) symbol (api_get w symbol)); cbn in Hdf;
        try contradiction.
      destruct Hdf as [<- | []]. reflexivity.
    + intros (symbol & Hin & Hf). exists symbol. split; [exact Hin|].
      rewrite Hf. left; reflexivity.
  - induction todo as [|symbol rest IH]; [cbn; lia|].
    cbn [flat_map]. rewrite length_app.
    destruct (fetch_symbol (lib w) symbol (api_get w symbol)); cbn [length]; lia.
Qed.

(** X8: An answer whose status is not ok, or that has no timestamps (no key
    [t], or an empty array), is reported as missing data with its status:
    no frame is built, whatever the candle arrays hold. *)
Theorem no_data_without_ok_and_timestamps (lib : pandas) (symbol : string)
        (data : candles) :
  resp_s data <> Some "ok" \/ resp_t data = None \/ resp_t data = Some [] ->
  fetch_symbol lib symbol (Some data) = NoData (resp_s data).
Proof.
  intros H. unfold fetch_symbol.
  destruct (resp_s data) as [s|] eqn:Hs; cbn [andb]; [|reflexivity].
  destruct (String.eqb_spec s "ok") as [->|Hne]; cbn [andb]; [|reflexivity].
  destruct H as [H | [H | H]]; [congruence | rewrite H | rewrite H]; reflexivity.
Qed.

Lemma no_data_without_ok_and_timestamps_witness :
  fetch_symbol pandas_wide "AAPL"
    (Some (mk_candles (Some "ok") (Some []) (Some [100%float]) (Some [110%float])
                      (Some [90%float]) (Some [105%float]) (Some [1000%float])))
  = NoData (Some "ok").
Proof.
  apply (no_data_without_ok_and_timestamps pandas_wide "AAPL"
           (mk_candles (Some "ok") (Some []) (Some [100%float]) (Some [110%float])
                       (Some [90%float]) (Some [105%float]) (Some [1000%float]))).
  right; right; reflexivity.
Defined.

(** X9: For an answer with status ok and timestamps, the fetch of the symbol
    ends in the exception branch exactly when a candle array is missing or
    has another length than the timestamps, or when a timestamp is outside
    the instants that pandas represents; no partial frame is built. *)
Theorem fetch_error_iff_not_parallel (lib : pandas) (symbol : string)
        (data : candles) (t : list (option Z)) :
  resp_s data = Some "ok" -> resp_t data = Some t -> t <> [] ->
  (fetch_symbol lib symbol (Some data) = FetchError <->
   ~ (parallel_arrays data t /\ forallb (representable lib) t = true)).
Proof.
  intros Hs Ht Hne. split.
  - intros Herr [(o & h & l & c & v & Ho & Hh & Hl & Hc & Hv & Lo & Lh & Ll & Lc & Lv)
                 Hrep].
    destruct (fetch_symbol_succeeds lib symbol data t o h l c v) as (df & Hdf & _);
      auto.
    congruence.
  - intros Hnp. unfold fetch_symbol. rewrite Hs, Ht.
    destruct t as [|t0 t]; [congruence|].
    change (String.eqb "ok" "ok") with true. cbn [andb].
    destruct (resp_o data) as [o|] eqn:Ho; [|reflexivity].
    destruct (resp_h data) as [h|] eqn:Hh; [|reflexivity].
    destruct (resp_l data) as [l|] eqn:Hl; [|reflexivity].
    destruct (resp_c data) as [c|] eqn:Hc; [|reflexivity].
    destruct (resp_v data) as [v|] eqn:Hv; [|reflexivity].
    destruct (build_frame lib symbol (t0 :: t) o h l c v) as [df|] eqn:Hb; [|reflexivity].
    exfalso. apply Hnp.
    assert (Hsome : exists df, build_frame lib symbol (t0 :: t) o h l c v = Some df)
      by (exists df; exact Hb).
    apply build_frame_some in Hsome. destruct Hsome as (Hrep & Lo & Lh & Ll & Lc & Lv).
    split; [|exact Hrep]. exists o, h, l, c, v. repeat split; assumption.
Qed.

Lemma fetch_error_iff_not_parallel_witness :
  (fetch_symbol pandas_narrow "AAPL" (Some ragged_response) = FetchError <->
   ~ (parallel_arrays ragged_response [Some 1714521600; Some 1714608000] /\
      forallb (representable pandas_narrow) [Some 1714521600; Some 1714608000] = true)) /\
  (fetch_symbol pandas_wide "AAPL" (Some far_future_response) = FetchError <->
   ~ (parallel_arrays far_future_response [Some 253402300800] /\
      forallb (representable pandas_wide) [Some 253402300800] = true)).
Proof.
  split.
  - apply (fetch_error_iff_not_parallel pandas_narrow "AAPL" ragged_response
             [Some 1714521600; Some 1714608000]);
      [reflexivity | reflexivity | discriminate].
  - apply (fetch_error_iff_not_parallel pandas_wide "AAPL" far_future_response
             [Some 253402300800]);
      [reflexivity | reflexivity | discriminate].
Defined.

(** ** Calendar fields *)

Lemma all_from_spec (check : Z -> bool) (n : nat) (z : Z) :
  all_from check n z = true ->
  forall k, z <= k < z + Z.of_nat n -> check k = true.
Proof.
  revert z; induction n as [|n IH]; intros z Hall k Hk; [lia|].
  cbn [all_from] in Hall. apply andb_prop in Hall. destruct Hall as [Hz Hrest].
  destruct (Z.eq_dec k z) as [->|Hne]; [exact Hz|].
  apply (IH (z + 1) Hrest). lia.
Qed.

(** Every day of the 400-year era, checked one by one. *)
Lemma month_day_in_range_era (doe : Z) :
  0 <= doe < 146097 -> month_day_in_range doe = true.
Proof.
  intros Hdoe.
  apply (all_from_spec month_day_in_range (Z.to_nat 146097) 0).
  - vm_compute. reflexivity.
  - rewrite Z2Nat.id by lia. lia.
Qed.

Lemma civil_month_day (days : Z) :
  (d_month (civil_from_days days), d_day (civil_from_days days))
  = month_day_of_doe ((days + 719468) mod 146097).
Proof.
  unfold civil_from_days, month_day_of_doe. cbv zeta. cbn [d_month d_day].
  replace (days + 719468 - (days + 719468) / 146097 * 146097)
    with ((days + 719468) mod 146097)
    by (rewrite Z.mod_eq by lia; lia).
  reflexivity.
Qed.

Lemma civil_from_days_range (days : Z) :
  1 <= d_month (civil_from_days days) <= 12 /\
  1 <= d_day (civil_from_days days) <= 31.
Proof.
  pose proof (month_day_in_range_era ((days + 719468) mod 146097)
                (Z.mod_pos_bound _ 146097 ltac:(lia))) as H.
  unfold month_day_in_range in H. rewrite <- civil_month_day in H.
  repeat (apply andb_prop in H; destruct H as [H ?]).
  lia.
Qed.


Lemma dt_month_range (t : datetime) : 1 <= dt_month t <= 12.
Proof.
  unfold dt_month, dt_date. apply civil_from_days_range.
Qed.

Lemma get_season_in_year (month : Z) :
  1 <= month <= 12 -> In (get_season month) season_names.
Proof.
  intros H.
  assert (Hm : month = 1 \/ month = 2 \/ month = 3 \/ month = 4 \/ month = 5 \/
               month = 6 \/ month = 7 \/ month = 8 \/ month = 9 \/ month = 10 \/
               month = 11 \/ month = 12) by lia.
  repeat (destruct Hm as [-> | Hm]; [cbn; tauto|]). subst; cbn; tauto.
Qed.

(** The frame that is fetched for a symbol, row by row. *)
Lemma fetched_row (lib : pandas) (symbol : string) (response : option candles)
      (df : frame) (r : row) :
  fetch_symbol lib symbol response = Fetched df -> In r df ->
  exists t o h l c v i,
    build_frame lib symbol t o h l c v = Some df /\
    nth_error df i = Some r /\
    (i < length t)%nat /\ length o = length t /\ length c = length t /\
    length v = length t /\
    r = mk_row (option_map to_datetime (nth i t None)) (Symbol symbol)
          (Some (nth i o nan)) (Some (nth i h nan)) (Some (nth i l nan))
          (nth i c nan) (nth i v nan)
          (Some (nth i (price_change c o) nan))
          (Some (nth i (pct_change (pads_pct_change lib) v) nan))
          (hour_text lib (existsb is_none t) (option_map to_datetime (nth i t None)))
          (option_map dt_month (option_map to_datetime (nth i t None)))
          (Some (option_map dt_date (option_map to_datetime (nth i t None))))
          (Some (nth i (price_per_volume c v) nan))
          (Some "Neutral") None.
Proof.
  intros H Hin.
  destruct (fetch_symbol_fetched _ _ _ _ H)
    as (data & t & o & h & l & c & v & _ & _ & _ & _ & _ & _ & _ & _ & _ & Hb).
  assert (Hsome : exists df, build_frame lib symbol t o h l c v = Some df)
    by (exists df; exact Hb).
  apply build_frame_some in Hsome. destruct Hsome as (_ & Ho & _ & _ & Hc & Hv).
  apply In_nth_error in Hin. destruct Hin as [i Hi].
  destruct (build_frame_row _ _ _ _ _ _ _ _ _ _ _ Hb Hi) as [Hlt Hr].
  exists t, o, h, l, c, v, i. repeat split; assumption.
Qed.






(** ** The gathered frame *)

(** A value drawn by [uniform] between two numbers is a number. *)
Lemma uniform_is_number (low high raw : float) :
  py_int low <> None -> py_int (uniform low high raw) <> None.
Proof.
  intros Hlow. unfold uniform.
  destruct ((low <=? raw) && (raw <? high))%float eqn:E; [|exact Hlow].
  apply andb_prop in E. destruct E as [Hle Hlt].
  rewrite FloatAxioms.leb_spec in Hle. rewrite FloatAxioms.ltb_spec in Hlt.
  unfold py_int in *. unfold SFleb, SFltb in *.
  destruct (Prim2SF raw) as [s|[|]| |s m e]; try discriminate.
  all: destruct (Prim2SF low) as [s'|[|]| |s' m' e'];
    destruct (Prim2SF high) as [s''|[|]| |s'' m'' e''];
    cbn in Hle, Hlt; try discriminate; congruence.
Qed.

Lemma randint_cell_is_number (low high raw : float) :
  py_int low <> None -> py_int (randint_cell low high raw) <> None.
Proof.
  intros Hlow. pose proof (uniform_is_number low high raw Hlow) as H.
  unfold randint_cell, uniform in *.
  destruct ((low <=? raw) && (raw <? high))%float; [|exact Hlow].
  destruct (whole raw); [exact H | exact Hlow].
Qed.

(** The volume of a synthetic row is a whole number. *)
Lemma randint_cell_whole (low high raw : float) :
  whole low = true -> whole (randint_cell low high raw) = true.
Proof.
  intros Hlow. unfold randint_cell.
  destruct ((low <=? raw) && (raw <? high))%float; [|exact Hlow].
  destruct (whole raw) eqn:E; [exact E | exact Hlow].
Qed.

Lemma number_notna (x : float) : py_int x <> None -> notna x = true.
Proof.
  intros H. apply notna_true_iff. intros ->. apply H. reflexivity.
Qed.

(** A synthetic row has the four required cells, and its volume is a
    number. *)
Lemma sample_row_indexable (w : world) (symbol : string) (i : nat) :
  complete (sample_row w symbol i) = true /\
  py_int (r_volume (sample_row w symbol i)) <> None.
Proof.
  assert (Hv : py_int (r_volume (sample_row w symbol i)) <> None)
    by (apply randint_cell_is_number; discriminate).
  split; [|exact Hv].
  unfold complete. rewrite (number_notna _ Hv).
  cbn [sample_row r_timestamp r_symbol r_close is_some symbol_present andb].
  rewrite number_notna by (apply uniform_is_number; discriminate).
  reflexivity.
Qed.

(** Where a row of the gathered frame comes from: the frame fetched for a
    symbol, or, when no symbol was fetched, the synthetic rows. *)
Lemma gathered_row_origin (w : world) (r : row) :
  In r (gathered w) ->
  (exists symbol df,
      In symbol symbols /\
      fetch_symbol (lib w) symbol (api_get w symbol) = Fetched df /\
      In r df) \/
  (fst (fetch_all w symbols []) = [] /\
   exists symbol i, In symbol symbols /\ (i < 30)%nat /\ r = sample_row w symbol i).
Proof.
  unfold gathered.
  destruct (fst (fetch_all w symbols [])) as [|df0 rest] eqn:E.
  - intros Hr. right. split; [reflexivity|].
    unfold sample_data in Hr. apply in_flat_map in Hr.
    destruct Hr as (symbol & Hsym & Hr). apply in_map_iff in Hr.
    destruct Hr as (i & <- & Hi). apply in_seq in Hi.
    exists symbol, i. repeat split; [exact Hsym | lia].
  - intros Hr. left. apply in_concat in Hr. destruct Hr as (df & Hdf & Hr).
    rewrite <- E in Hdf. rewrite fetch_all_frames in Hdf. cbn [app] in Hdf.
    apply in_flat_map in Hdf. destruct Hdf as (symbol & Hsym & Hdf).
    exists symbol, df. split; [exact Hsym|].
    destruct (fetch_symbol (lib w) symbol (api_get w symbol)); cbn in Hdf;
      try contradiction.
    destruct Hdf as [<- | []]. split; [reflexivity | exact Hr].
Qed.

(** A gathered row always has its symbol, and no season yet. *)
Lemma gathered_symbol (w : world) (r : row) :
  In r (gathered w) -> (exists s, r_symbol r = Symbol s) /\ r_season r = None.
Proof.
  intros Hr.
  destruct (gathered_row_origin w r Hr)
    as [(symbol & df & _ & Hf & Hin) | (_ & symbol & i & _ & _ & ->)].
  - destruct (fetched_row _ _ _ _ _ Hf Hin)
      as (t & o & h & l & c & v & i & _ & _ & _ & _ & _ & _ & ->).
    split; [exists symbol|]; reflexivity.
  - split; [exists symbol|]; reflexivity.
Qed.

(** A gathered row that has a timestamp has a month of the year. *)
Lemma gathered_month (w : world) (r : row) :
  In r (gathered w) -> r_timestamp r <> None ->
  exists m, r_month r = Some m /\ 1 <= m <= 12.
Proof.
  intros Hr Hts.
  destruct (gathered_row_origin w r Hr)
    as [(symbol & df & _ & Hf & Hin) | (_ & symbol & i & _ & _ & ->)].
  - destruct (fetched_row _ _ _ _ _ Hf Hin)
      as (t & o & h & l & c & v & i & _ & _ & _ & _ & _ & _ & E).
    rewrite E in Hts |- *. cbn [r_timestamp r_month] in Hts |- *.
    destruct (nth i t None) as [z|]; [|contradiction].
    eexists; split; [reflexivity | apply dt_month_range].
  - eexists; split; [reflexivity | apply dt_month_range].
Qed.

Lemma filter_all {A : Type} (f : A -> bool) (xs : list A) :
  (forall x, In x xs -> f x = true) -> filter f xs = xs.
Proof.
  induction xs as [|x xs IH]; intros H; [reflexivity|].
  cbn. rewrite (H x) by (left; reflexivity).
  rewrite IH; [reflexivity|]. intros y Hy. apply H. right; exact Hy.
Qed.

Lemma complete_set_season (r : row) : complete (set_season r) = complete r.
Proof.
  reflexivity.
Qed.

Lemma dropna_add_season (df : frame) :
  dropna (add_season df) = add_season (dropna df).
Proof.
  unfold dropna, add_season.
  induction df as [|r df IH]; [reflexivity|].
  cbn [map filter]. rewrite complete_set_season.
  destruct (complete r); cbn [map]; rewrite IH; reflexivity.
Qed.

(** When the builder raises on no row, the documents are those of the rows,
    one by one. *)
Lemma action_all_defined (df : frame) :
  (forall r, In r df -> action r <> None) ->
  map action df = map Some (generate_actions df).
Proof.
  induction df as [|r df IH]; intros H; [reflexivity|].
  cbn [map generate_actions].
  destruct (action r) as [d|] eqn:Hd.
  - cbn [map]. rewrite IH; [reflexivity|].
    intros r' Hr'. apply H. right; exact Hr'.
  - exfalso. apply (H r); [left; reflexivity | exact Hd].
Qed.

(** After line 222 the builder raises on a row exactly when its volume is
    infinite. *)
Lemma action_set_season_none (r : row) :
  action (set_season r) = None <-> r_volume r = infinity \/ r_volume r = neg_infinity.
Proof.
  rewrite action_none_iff. cbn [set_season r_season r_volume].
  split; [intros [H|H]; [discriminate | exact H] | intros H; right; exact H].
Qed.

Lemma number_not_infinite (x : float) :
  py_int x <> None -> ~ (x = infinity \/ x = neg_infinity).
Proof.
  intros H E. apply H. apply py_int_none. right. exact E.
Qed.

(** The rows that line 223 keeps, and what becomes of them. *)
Lemma final_frame_documents (w : world) (d : doc) :
  In d (generate_actions (final_frame w)) <->
  exists r, In r (gathered w) /\ r_timestamp r <> None /\
            r_close r <> nan /\ r_volume r <> nan /\
            action (set_season r) = Some d.
Proof.
  rewrite generate_actions_In. unfold final_frame. rewrite dropna_add_season.
  unfold add_season, dropna. split.
  - intros (r & Hr & Hd). apply in_map_iff in Hr. destruct Hr as (r0 & <- & Hr0).
    apply filter_In in Hr0. destruct Hr0 as [Hr0 Hc].
    apply complete_true in Hc. exists r0. tauto.
  - intros (r & Hr & Hts & Hc & Hv & Hd). exists (set_season r).
    split; [|exact Hd]. apply in_map. apply filter_In. split; [exact Hr|].
    apply complete_true. destruct (gathered_symbol w r Hr) as [Hs _]. tauto.
Qed.

(** When every gathered row has a timestamp, a close and a number as its
    volume, line 223 drops nothing and the builder raises on nothing. *)
Lemma final_frame_of_numbers (w : world) :
  (forall r, In r (gathered w) ->
             r_timestamp r <> None /\ r_close r <> nan /\ py_int (r_volume r) <> None) ->
  final_frame w = add_season (gathered w) /\
  map action (final_frame w) = map Some (generate_actions (final_frame w)) /\
  length (generate_actions (final_frame w)) = length (gathered w).
Proof.
  intros Hall.
  assert (Hkeep : final_frame w = add_season (gathered w)).
  { unfold final_frame. rewrite dropna_add_season. unfold dropna.
    rewrite filter_all; [reflexivity|].
    intros r Hr. apply complete_true. destruct (gathered_symbol w r Hr) as [Hs _].
    destruct (Hall r Hr) as (Hts & Hc & Hv).
    repeat split; try assumption. intros E. apply Hv. rewrite E. reflexivity. }
  assert (Hact : map action (final_frame w)
                 = map Some (generate_actions (final_frame w))).
  { apply action_all_defined. intros r Hr. rewrite Hkeep in Hr.
    unfold add_season in Hr. apply in_map_iff in Hr. destruct Hr as (r0 & <- & Hr0).
    rewrite action_set_season_none. apply number_not_infinite. apply (Hall r0 Hr0). }
  split; [exact Hkeep|]. split; [exact Hact|].
  rewrite <- (length_map Some), <- Hact, length_map, Hkeep.
  unfold add_season. apply length_map.
Qed.

(** The synthetic rows are all indexed. *)
Lemma sample_data_indexed (w : world) :
  gathered w = sample_data w ->
  length (generate_actions (final_frame w)) = length (sample_data w).
Proof.
  intros Hg. rewrite <- Hg. apply final_frame_of_numbers.
  intros r Hr. rewrite Hg in Hr.
  unfold sample_data in Hr. apply in_flat_map in Hr.
  destruct Hr as (symbol & _ & Hr). apply in_map_iff in Hr.
  destruct Hr as (i & <- & _).
  destruct (sample_row_indexable w symbol i) as [Hc Hv].
  apply complete_true in Hc. tauto.
Qed.

(** X12: A gathered row always has its symbol.  It reaches the first bulk
    call exactly when its timestamp, close and volume are there and its
    volume is not infinite: line 223 drops the other rows, and the builder
    raises on an infinite volume only.  When every gathered row has a
    timestamp, a close and a number as its volume, as the synthetic rows
    have, nothing is dropped and the call carries one document per row, in
    the order of the rows. *)
Theorem gathered_rows_that_are_indexed (w : world) :
  (forall r, In r (gathered w) -> exists s, r_symbol r = Symbol s) /\
  final_frame w = add_season (dropna (gathered w)) /\
  (forall r, In r (final_frame w) ->
             (action r = None <-> r_volume r = infinity \/ r_volume r = neg_infinity)) /\
  (forall d,
      In d (generate_actions (final_frame w)) <->
      exists r, In r (gathered w) /\ r_timestamp r <> None /\
                r_close r <> nan /\ r_volume r <> nan /\
                action (set_season r) = Some d) /\
  ((forall r, In r (gathered w) ->
              r_timestamp r <> None /\ r_close r <> nan /\ py_int (r_volume r) <> None) ->
   final_frame w = add_season (gathered w) /\
   map action (final_frame w) = map Some (generate_actions (final_frame w)) /\
   length (generate_actions (final_frame w)) = length (gathered w)) /\
  (gathered w = sample_data w ->
   length (generate_actions (final_frame w)) = length (sample_data w)).
Proof.
  split; [|split; [|split; [|split; [|split]]]].
  - intros r Hr. apply (gathered_symbol w r Hr).
  - apply dropna_add_season.
  - intros r Hr. unfold final_frame in Hr. rewrite dropna_add_season in Hr.
    unfold add_season in Hr.
    apply in_map_iff in Hr. destruct Hr as (r0 & <- & _).
    exact (action_set_season_none r0).
  - apply final_frame_documents.
  - apply final_frame_of_numbers.
  - apply sample_data_indexed.
Qed.

Lemma gathered_rows_that_are_indexed_witness :
  (final_frame world_up = add_season (gathered world_up) /\
   map action (final_frame world_up)
   = map Some (generate_actions (final_frame world_up)) /\
   length (generate_actions (final_frame world_up)) = length (gathered world_up)) /\
  length (generate_actions (final_frame world_no_data)) = 150%nat.
Proof.
  split.
  - apply (gathered_rows_that_are_indexed world_up).
    intros r [<- | []]. repeat split; discriminate.
  - apply (gathered_rows_that_are_indexed world_no_data). reflexivity.
Defined.

(** X13: When no symbol yields a frame, the run goes on with synthetic rows: 30
    for each of the five symbols, 150 in all, and the first bulk call
    carries 150 documents. *)
Theorem synthetic_rows_when_nothing_fetched (w : world) :
  (forall symbol df,
      In symbol symbols ->
      fetch_symbol (lib w) symbol (api_get w symbol) <> Fetched df) ->
  gathered w = sample_data w /\
  length (gathered w) = 150%nat /\
  (forall symbol, In symbol symbols -> length (rows_of symbol (gathered w)) = 30%nat) /\
  length (generate_actions (final_frame w)) = 150%nat.
Proof.
  intros Hnone.
  assert (Hg : gathered w = sample_data w).
  { unfold gathered. rewrite fetch_all_frames. cbn [symbols flat_map app].
    rewrite !no_frame by (intros df; apply Hnone; cbn; tauto).
    reflexivity. }
  repeat split.
  - exact Hg.
  - rewrite Hg. reflexivity.
  - intros symbol Hin. rewrite Hg. cbn in Hin.
    destruct Hin as [<- | [<- | [<- | [<- | [<- | []]]]]]; reflexivity.
  - rewrite (sample_data_indexed w Hg). reflexivity.
Qed.

Lemma synthetic_rows_when_nothing_fetched_witness :
  gathered world_no_data = sample_data world_no_data /\
  length (gathered world_no_data) = 150%nat /\
  (forall symbol, In symbol symbols ->
                  length (rows_of symbol (gathered world_no_data)) = 30%nat) /\
  length (generate_actions (final_frame world_no_data)) = 150%nat.
Proof.
  apply (synthetic_rows_when_nothing_fetched world_no_data).
  intros symbol df _. discriminate.
Defined.

(** X14: As soon as one symbol yields a frame there are no synthetic rows: the
    gathered frame is the frames of the symbols that succeeded, one after
    the other in the order of the symbols, and each of its rows is a row of
    one of them. *)
Theorem no_synthetic_rows_beside_fetched (w : world) (symbol : string) (df : frame) :
  In symbol symbols ->
  fetch_symbol (lib w) symbol (api_get w symbol) = Fetched df ->
  gathered w
  = concat (flat_map (fun s => match fetch_symbol (lib w) s (api_get w s) with
                               | Fetched f => [f]
                               | _ => []
                               end) symbols) /\
  forall r, In r (gathered w) ->
            exists s f, In s symbols /\
                        fetch_symbol (lib w) s (api_get w s) = Fetched f /\ In r f.
Proof.
  intros Hin Hf.
  assert (Hne : fst (fetch_all w symbols []) <> []).
  { intros E.
    assert (Hdf : In df (fst (fetch_all w symbols []))).
    { rewrite fetch_all_frames. cbn [app]. apply in_flat_map.
      exists symbol. split; [exact Hin|]. rewrite Hf. left; reflexivity. }
    rewrite E in Hdf. contradiction. }
  split.
  - unfold gathered. pose proof (fetch_all_frames w symbols []) as E.
    cbn [app] in E. rewrite <- E.
    destruct (fst (fetch_all w symbols [])); [contradiction | reflexivity].
  - intros r Hr.
    destruct (gathered_row_origin w r Hr) as [H | [E _]]; [exact H | contradiction].
Qed.

Lemma no_synthetic_rows_beside_fetched_witness :
  gathered world_up
  = concat (flat_map (fun s => match fetch_symbol (lib world_up) s (api_get world_up s) with
                               | Fetched f => [f]
                               | _ => []
                               end) symbols) /\
  forall r, In r (gathered world_up) ->
            exists s f, In s symbols /\
                        fetch_symbol (lib world_up) s (api_get world_up s) = Fetched f /\
                        In r f.
Proof.
  apply (no_synthetic_rows_beside_fetched world_up "AAPL" [aapl_row]).
  - left; reflexivity.
  - reflexivity.
Defined.

(** ** Season and retention *)

Lemma action_month_season (r : row) (d : doc) :
  action r = Some d ->
  exists season,
    r_season r = Some season /\
    dict_get "month" (_source d)
    = Some (match r_month r with Some m => JInt m | None => JNull end) /\
    dict_get "season" (_source d) = Some (or_default season "Unknown").
Proof.
  intros H. destruct (action_source r d H) as (volume & season & _ & Hs & _ & ->).
  exists season. split; [exact Hs|]. split; lookup; reflexivity.
Qed.

(** X15: The season of every document of the first bulk call of a run is one of
    Winter, Spring, Summer and Fall: the month of a fetched or synthetic row
    is always from 1 to 12, so Unknown does not occur. *)
Theorem season_is_never_unknown (w : world) (d : doc) :
  In d (generate_actions (final_frame w)) ->
  exists season,
    dict_get "season" (_source d) = Some (JStr season) /\ In season season_names.
Proof.
  intros Hd. apply final_frame_documents in Hd.
  destruct Hd as (r0 & Hr0 & Hts & _ & _ & Hact).
  destruct (gathered_month w r0 Hr0 Hts) as (m & Hm & Hrange).
  destruct (action_month_season (set_season r0) d Hact) as (season & Hseason & _ & Hs).
  exists (get_season m). split; [|apply get_season_in_year; exact Hrange].
  rewrite Hs. cbn [set_season r_season] in Hseason. rewrite Hm in Hseason.
  injection Hseason as <-. reflexivity.
Qed.

Lemma season_is_never_unknown_witness :
  exists season,
    dict_get "season" (_source aapl_doc) = Some (JStr season) /\
    In season season_names.
Proof.
  apply (season_is_never_unknown world_up aapl_doc). left; reflexivity.
Defined.

(** X16: In the documents of a frame that went through lines 222-223, the season
    is the season of the month: of the number under month, or Unknown when
    month is null; month is never anything else. *)
Theorem season_matches_month (df : frame) (d : doc) :
  In d (generate_actions (dropna (add_season df))) ->
  (exists m, dict_get "month" (_source d) = Some (JInt m) /\
             dict_get "season" (_source d) = Some (JStr (get_season m))) \/
  (dict_get "month" (_source d) = Some JNull /\
   dict_get "season" (_source d) = Some (JStr "Unknown")).
Proof.
  intros Hd. apply generate_actions_In in Hd. destruct Hd as (r & Hr & Hact).
  unfold dropna in Hr. apply filter_In in Hr. destruct Hr as [Hr _].
  unfold add_season in Hr. apply in_map_iff in Hr. destruct Hr as (r0 & <- & _).
  destruct (action_month_season (set_season r0) d Hact) as (season & Hseason & Hm & Hs).
  cbn [set_season r_season r_month] in Hseason, Hm.
  injection Hseason as <-. cbn [or_default] in Hs.
  destruct (r_month r0) as [m|].
  - left. exists m. split; assumption.
  - right. split; assumption.
Qed.

Lemma season_matches_month_witness :
  (exists m, dict_get "month" (_source aapl_doc) = Some (JInt m) /\
             dict_get "season" (_source aapl_doc) = Some (JStr (get_season m))) \/
  (dict_get "month" (_source aapl_doc) = Some JNull /\
   dict_get "season" (_source aapl_doc) = Some (JStr "Unknown")).
Proof.
  apply (season_matches_month [aapl_row] aapl_doc). left; reflexivity.
Defined.

Lemma set_season_idempotent (r : row) : set_season (set_season r) = set_season r.
Proof.
  reflexivity.
Qed.

(** X17: Lines 222 and 223 commute: adding the season and dropping incomplete
    rows give the same frame in either order.  Dropping is idempotent, keeps
    the order of the rows, and works row by row. *)
Theorem dropna_and_season_commute (df df' : frame) :
  dropna (add_season df) = add_season (dropna df) /\
  dropna (dropna df) = dropna df /\
  dropna (df ++ df')%list = (dropna df ++ dropna df')%list /\
  (length (dropna df) <= length df)%nat.
Proof.
  split; [apply dropna_add_season|].
  unfold dropna. repeat split.
  - apply filter_all. intros r Hr. apply filter_In in Hr. tauto.
  - apply filter_app.
  - apply filter_length_le.
Qed.

(** ** Document builder *)

Lemma generate_actions_app (df df' : frame) :
  generate_actions (df ++ df')%list
  = (generate_actions df ++ generate_actions df')%list.
Proof.
  induction df as [|r df IH]; [reflexivity|].
  cbn [app generate_actions]. destruct (action r); rewrite IH; reflexivity.
Qed.

Lemma generate_actions_length (df : frame) :
  (length (generate_actions df) <= length df)%nat.
Proof.
  induction df as [|r df IH]; [cbn; lia|].
  cbn [generate_actions]. destruct (action r); cbn [length]; lia.
Qed.

(** X18: The builder raises on a row exactly when the frame has no season
    column (a KeyError), or the volume of the row is infinite ([int] of an
    infinity); after line 222 the column is there, and only the volume is
    left.  The loop then skips that row and goes on: the documents of the
    rows before and after it are all produced, in order.  There are never
    more documents than rows. *)
Theorem row_that_raises_is_skipped (before after : frame) (r : row) :
  (action r = None <->
   r_season r = None \/ r_volume r = infinity \/ r_volume r = neg_infinity) /\
  (action (set_season r) = None <->
   r_volume r = infinity \/ r_volume r = neg_infinity) /\
  (action r = None ->
   generate_actions (before ++ r :: after)%list
   = (generate_actions before ++ generate_actions after)%list) /\
  (forall d, action r = Some d ->
   generate_actions (before ++ r :: after)%list
   = (generate_actions before ++ d :: generate_actions after)%list) /\
  (length (generate_actions (before ++ r :: after)%list)
   <= length (before ++ r :: after)%list)%nat.
Proof.
  split; [apply action_none_iff|]. split; [apply action_set_season_none|].
  split; [|split; [|apply generate_actions_length]].
  - intros Hnone. rewrite generate_actions_app. cbn [generate_actions].
    rewrite Hnone. reflexivity.
  - intros d Hd. rewrite generate_actions_app. cbn [generate_actions].
    rewrite Hd. reflexivity.
Qed.

Lemma row_that_raises_is_skipped_witness :
  generate_actions ([set_season aapl_row] ++ overflow_row :: [bare_row])%list
  = (generate_actions [set_season aapl_row] ++ generate_actions [bare_row])%list /\
  generate_actions ([set_season aapl_row] ++ aapl_row :: [bare_row])%list
  = (generate_actions [set_season aapl_row] ++ generate_actions [bare_row])%list /\
  generate_actions ([] ++ bare_row :: [overflow_row])%list
  = (generate_actions [] ++ bare_doc :: generate_actions [overflow_row])%list.
Proof.
  split; [|split].
  - apply (row_that_raises_is_skipped [set_season aapl_row] [bare_row] overflow_row).
    reflexivity.
  - apply (row_that_raises_is_skipped [set_season aapl_row] [bare_row] aapl_row).
    reflexivity.
  - apply (row_that_raises_is_skipped [] [overflow_row] bare_row).
    reflexivity.
Defined.

(** X19: Every document goes to the index finnhub_stocks and has the eight keys
    of lines 235-242.  symbol, hour, season and sentiment are always text;
    the other four are written as null, not left out, when the row has no
    value: @timestamp, close, volume and month are null exactly when the
    cell of the row is missing. *)
Theorem base_fields_of_a_document (r : row) (d : doc) :
  action r = Some d ->
  _index d = "finnhub_stocks" /\
  (forall key, In key base_keys -> exists v, dict_get key (_source d) = Some v) /\
  (exists s, dict_get "symbol" (_source d) = Some (JStr s)) /\
  (dict_get "@timestamp" (_source d) = Some JNull <-> r_timestamp r = None) /\
  (dict_get "close" (_source d) = Some JNull <-> r_close r = nan) /\
  (dict_get "volume" (_source d) = Some JNull <-> r_volume r = nan) /\
  (dict_get "month" (_source d) = Some JNull <-> r_month r = None).
Proof.
  intros H. destruct (action_source r d H) as (volume & season & Hv & _ & Hi & ->).
  split; [exact Hi|]. split; [|split; [|split; [|split; [|split]]]].
  - intros key Hin. cbn in Hin.
    repeat (destruct Hin as [<- | Hin]; [lookup; eexists; reflexivity|]).
    contradiction.
  - lookup. eexists; reflexivity.
  - lookup. destruct (r_timestamp r); split; congruence.
  - lookup. rewrite <- notna_false_iff.
    destruct (notna (r_close r)); split; congruence.
  - lookup. rewrite <- notna_false_iff.
    destruct (notna (r_volume r)).
    + destruct (py_int (r_volume r)); cbn in Hv; [|discriminate].
      injection Hv as <-. split; discriminate.
    + injection Hv as <-. split; reflexivity.
  - lookup. destruct (r_month r); split; congruence.
Qed.

Lemma base_fields_of_a_document_witness :
  _index bare_doc = "finnhub_stocks" /\
  (forall key, In key base_keys -> exists v, dict_get key (_source bare_doc) = Some v).
Proof.
  destruct (base_fields_of_a_document bare_row bare_doc eq_refl) as (H1 & H2 & _).
  split; assumption.
Defined.

Lemma set_float_written (key : string) (cell : option float) (src : dict) :
  set_float key cell src
  = match written_float cell with
    | Some v => dict_set key v src
    | None => src
    end.
Proof.
  unfold set_float, written_float. destruct cell as [x|]; [|reflexivity].
  destruct (notna x); reflexivity.
Qed.

Lemma set_date_written (key : string) (cell : option (option date)) (src : dict) :
  set_date key cell src
  = match written_date cell with
    | Some v => dict_set key v src
    | None => src
    end.
Proof.
  unfold set_date, written_date. destruct cell as [[d|]|]; reflexivity.
Qed.

Lemma NoDup_app_filter {A : Type} (f : A -> bool) (xs ys : list A) :
  NoDup (xs ++ ys) -> NoDup (xs ++ filter f ys).
Proof.
  induction xs as [|x xs IH]; cbn [app]; intros H.
  - apply NoDup_filter. exact H.
  - inversion H as [|? ? Hnin Hnd]; subst. constructor; [|apply IH; exact Hnd].
    intros Hin. apply Hnin. apply in_app_or in Hin. apply in_or_app.
    destruct Hin as [Hin | Hin]; [left; exact Hin|].
    right. apply filter_In in Hin. tauto.
Qed.

(** X20: The keys of a document are the eight base keys in the order of lines
    235-242, followed by those optional keys that got a value, in the order
    of lines 247-260; no key occurs twice, and there are from 8 to 15. *)
Theorem keys_of_a_document (r : row) (d : doc) :
  action r = Some d ->
  keys (_source d)
  = (base_keys
     ++ filter (fun key => is_some (dict_get key (_source d))) optional_fields)%list /\
  NoDup (keys (_source d)) /\
  (8 <= length (keys (_source d)) <= 15)%nat.
Proof.
  intros H. destruct (action_source r d H) as (volume & season & _ & _ & _ & Hsrc).
  assert (Hkeys : keys (_source d)
                  = (base_keys
                     ++ filter (fun key => is_some (dict_get key (_source d)))
                          optional_fields)%list).
  { rewrite Hsrc. rewrite set_date_written, !set_float_written.
    destruct (written_float (r_open r)), (written_float (r_high r)),
             (written_float (r_low r)), (written_float (r_price_change r)),
             (written_float (r_volume_change r)),
             (written_float (r_price_per_volume r)),
             (written_date (r_trip_date r)); reflexivity. }
  split; [exact Hkeys|]. split.
  - rewrite Hkeys. apply NoDup_app_filter.
    unfold base_keys, optional_fields. cbn [app].
    repeat (constructor; [cbn; intuition discriminate|]). constructor.
  - rewrite Hkeys, length_app.
    pose proof (filter_length_le
                  (fun key => is_some (dict_get key (_source d))) optional_fields).
    cbn [base_keys optional_fields length] in *. lia.
Qed.

Lemma keys_of_a_document_witness :
  keys (_source aapl_doc)
  = (base_keys
     ++ filter (fun key => is_some (dict_get key (_source aapl_doc)))
          optional_fields)%list /\
  NoDup (keys (_source aapl_doc)) /\
  (8 <= length (keys (_source aapl_doc)) <= 15)%nat.
Proof.
  apply (keys_of_a_document (set_season aapl_row) aapl_doc). reflexivity.
Defined.
(** ** Bulk loader and whole runs *)

Lemma bulk_clients_app (tr tr' : trace) :
  bulk_clients (tr ++ tr')%list = (bulk_clients tr ++ bulk_clients tr')%list.
Proof.
  induction tr as [|e tr IH]; [reflexivity|].
  destruct e; cbn; rewrite IH; reflexivity.
Qed.

Lemma bulk_clients_length (tr : trace) :
  length (bulk_clients tr) = length (submitted tr).
Proof.
  induction tr as [|e tr IH]; [reflexivity|].
  destruct e; cbn; rewrite ?IH; reflexivity.
Qed.

Lemma no_submission_no_client (tr : trace) :
  submitted tr = [] -> bulk_clients tr = [].
Proof.
  intros H. apply length_zero_iff_nil. rewrite bulk_clients_length, H. reflexivity.
Qed.

Lemma load_bulk_clients (w : world) (es : config) (df : frame) :
  bulk_clients (snd (load w es df))
  = es :: match es_bulk w 0 (generate_actions df) with
          | BulkRaise => [es]
          | BulkOk _ _ => []
          end.
Proof.
  unfold load, bulk.
  repeat first [rewrite bind_snd | rewrite bind_fst | rewrite bulk_clients_app];
    cbn [tell print ret fst snd bulk_clients app].
  destruct (es_bulk w 0 (generate_actions df)) as [n failed|];
    repeat first [rewrite bind_snd | rewrite bind_fst | rewrite bulk_clients_app];
    cbn [tell print ret fst snd bulk_clients app].
  - destruct (Nat.eqb failed 0); reflexivity.
  - destruct (es_bulk w 1 (generate_actions (sample_df w))); reflexivity.
Qed.

(** X21: The bulk calls of a run: none without a client; otherwise one with the
    documents of the retained frame, and a second one, with the one
    synthetic document, only if the first raises.  A first call that returns
    is final, also when it reports failed items.  Every call goes to the
    client the resolver left in [es]. *)
Theorem bulk_calls_of_a_run (w : world) :
  submitted (snd (main w))
  = match fst (resolve w) with
    | None => []
    | Some _ =>
        generate_actions (final_frame w) ::
        match es_bulk w 0 (generate_actions (final_frame w)) with
        | BulkRaise => [[smoke_doc w]]
        | BulkOk _ _ => []
        end
    end /\
  (length (submitted (snd (main w))) <= 2)%nat /\
  (forall c, In c (bulk_clients (snd (main w))) -> fst (resolve w) = Some c).
Proof.
  destruct (fst (resolve w)) as [es|] eqn:Hes.
  - destruct (main_connected w es Hes) as (_ & _ & Hsub & _).
    rewrite Hsub, load_submitted, sample_df_action.
    split; [reflexivity|]. split.
    + destruct (es_bulk w 0 (generate_actions (final_frame w))); cbn; lia.
    + intros c Hc. rewrite (main_trace w es Hes) in Hc.
      rewrite !bulk_clients_app in Hc.
      destruct (connect_quiet w (ELASTICSEARCH_CONFIGS w) 1 None) as [Hs1 _].
      destruct (init_schema_quiet w es) as [Hs2 _].
      destruct (fetch_all_trace w symbols []) as [Hs3 _].
      fold (resolve w) in Hs1.
      rewrite (no_submission_no_client _ Hs1), (no_submission_no_client _ Hs2),
        (no_submission_no_client _ Hs3), load_bulk_clients in Hc.
      assert (Hmid : forall df_list : list frame,
                 bulk_clients
                   match df_list with
                   | [] => [EPrint MNoStockData]
                   | _ :: _ => []
                   end = [])
        by (intros [|? ?]; reflexivity).
      rewrite Hmid in Hc. cbn [app bulk_clients] in Hc.
      destruct Hc as [<- | Hc]; [reflexivity|].
      destruct (es_bulk w 0 (generate_actions (final_frame w)));
        cbn in Hc; [contradiction|].
      destruct Hc as [<- | []]. reflexivity.
  - destruct (main_unconnected w Hes) as (_ & _ & Hsub).
    rewrite Hsub. split; [reflexivity|]. split; [cbn; lia|].
    intros c Hc. rewrite (no_submission_no_client _ Hsub) in Hc. contradiction.
Qed.

Lemma bulk_calls_of_a_run_witness :
  fst (resolve world_cloud) = Some local_config.
Proof.
  destruct (bulk_calls_of_a_run world_cloud) as (_ & _ & H).
  apply H. left; reflexivity.
Defined.

(** X22: A run that has a client is strictly sequential: its trace is the calls
    of the resolver, then the index probe and creation, then the candle
    requests with their sleeps, then the bulk calls; no stage makes a call
    of another. *)
Theorem stages_run_in_sequence (w : world) (es : config) :
  fst (resolve w) = Some es ->
  exists resolving schema fetching loading,
    snd (main w) = (resolving ++ schema ++ fetching ++ loading)%list /\
    (constructed resolving = constructed (snd (main w)) /\
     created resolving = [] /\ requested resolving = [] /\
     sleeps resolving = O /\ submitted resolving = []) /\
    (constructed schema = [] /\ probed schema = [index_name] /\
     requested schema = [] /\ sleeps schema = O /\ submitted schema = []) /\
    (constructed fetching = [] /\ probed fetching = [] /\ created fetching = [] /\
     requested fetching = symbols /\ sleeps fetching = 5%nat /\
     submitted fetching = []) /\
    (constructed loading = [] /\ probed loading = [] /\ created loading = [] /\
     requested loading = [] /\ sleeps loading = O /\
     submitted loading = submitted (snd (main w))).
Proof.
  intros Hes.
  destruct (main_connected w es Hes) as (_ & _ & Hsub & _).
  destruct (connect_quiet w (ELASTICSEARCH_CONFIGS w) 1 None) as [Hs1 Hr1].
  destruct (connect_creates_nothing w (ELASTICSEARCH_CONFIGS w) 1 None) as [Hc1 Hsl1].
  destruct (init_schema_quiet w es) as [Hs2 Hr2].
  destruct (init_schema_calls w es) as (Hn2 & Hsl2 & Hp2 & _).
  destruct (fetch_all_trace w symbols []) as [Hs3 Hr3].
  destruct (fetch_all_calls w symbols []) as (Hn3 & Hc3 & Hp3 & Hsl3).
  destruct (load_calls w es (final_frame w)) as (Hn4 & Hc4 & Hp4 & Hsl4).
  pose proof (load_requested w es (final_frame w)) as Hr4.
  fold (resolve w) in Hs1, Hr1, Hc1, Hsl1.
  exists (snd (resolve w)), (snd (init_schema w es)), (snd (fetch_all w symbols [])),
    (match fst (fetch_all w symbols []) with
     | [] => [EPrint MNoStockData]
     | _ :: _ => []
     end ++ [EPrint (MLoaded (length (gathered w)))]
     ++ snd (load w es (final_frame w)))%list.
  split; [rewrite (main_trace w es Hes); reflexivity|].
  split; [|split; [|split]].
  - repeat split; try assumption.
    rewrite (main_trace w es Hes). unroll. rewrite Hn2, Hn3, Hn4.
    destruct (fst (fetch_all w symbols [])); cbn [constructed app];
      rewrite ?app_nil_r; reflexivity.
  - repeat split; assumption.
  - repeat split; assumption.
  - destruct (fst (fetch_all w symbols [])); unroll;
      rewrite Hn4, Hc4, Hp4, Hsl4, Hr4, Hsub; repeat split.
Qed.

Lemma stages_run_in_sequence_witness :
  exists resolving schema fetching loading,
    snd (main world_up) = (resolving ++ schema ++ fetching ++ loading)%list /\
    requested resolving = [] /\ requested schema = [] /\
    requested fetching = symbols /\ submitted fetching = [] /\
    submitted loading = [[aapl_doc]].
Proof.
  destruct (stages_run_in_sequence world_up local_config eq_refl)
    as (t1 & t2 & t3 & t4 & E & H1 & H2 & H3 & H4).
  exists t1, t2, t3, t4. repeat split; tauto.
Defined.

(** ** Edge cases of the derived columns, down to the documents *)

Lemma action_set_season_optional (r : row) (d : doc) :
  action (set_season r) = Some d ->
  dict_get "volume_change" (_source d) = written_float (r_volume_change r) /\
  dict_get "price_per_volume" (_source d) = written_float (r_price_per_volume r).
Proof.
  intros H.
  destruct (action_optional (set_season r) d H) as (_ & _ & _ & _ & Hvc & Hppv & _).
  split; assumption.
Qed.

Lemma action_volume (r : row) (d : doc) (z : Z) :
  action r = Some d -> py_int (r_volume r) = Some z ->
  dict_get "volume" (_source d) = Some (JInt z).
Proof.
  intros H Hz. destruct (action_source r d H) as (volume & season & Hv & _ & _ & ->).
  rewrite number_notna in Hv by congruence. rewrite Hz in Hv.
  injection Hv as <-. lookup. reflexivity.
Qed.

(** The two zeros. *)
Lemma zero_cases (x : float) :
  (x =? 0)%float = true <-> x = 0%float \/ x = (-0)%float.
Proof.
  rewrite eqb_zero_iff. split.
  - intros [[|] H]; [right | left]; apply Prim2SF_inj; rewrite H; reflexivity.
  - intros [-> | ->]; eexists; reflexivity.
Qed.

(** A positive number over a zero is an infinity with the sign of the
    zero, and stays one when 1 is taken off. *)
Lemma pct_pos_over_zero (x : float) :
  (0 <? x)%float = true ->
  (x / 0 - 1)%float = infinity /\ (x / (-0) - 1)%float = neg_infinity.
Proof.
  intros H. rewrite FloatAxioms.ltb_spec in H.
  assert (Hp : (x / 0)%float = infinity).
  { apply Prim2SF_inj. rewrite FloatAxioms.div_spec.
    change (Prim2SF 0) with (S754_zero false) in *.
    destruct (Prim2SF x) as [s|[|]| |[|] m e]; try discriminate; reflexivity. }
  assert (Hn : (x / (-0))%float = neg_infinity).
  { apply Prim2SF_inj. rewrite FloatAxioms.div_spec.
    change (Prim2SF 0) with (S754_zero false) in *.
    change (Prim2SF (-0)) with (S754_zero true) in *.
    destruct (Prim2SF x) as [s|[|]| |[|] m e]; try discriminate; reflexivity. }
  rewrite Hp, Hn. split; reflexivity.
Qed.

Lemma pct_neg_over_zero (x : float) :
  (x <? 0)%float = true ->
  (x / 0 - 1)%float = neg_infinity /\ (x / (-0) - 1)%float = infinity.
Proof.
  intros H. rewrite FloatAxioms.ltb_spec in H.
  assert (Hp : (x / 0)%float = neg_infinity).
  { apply Prim2SF_inj. rewrite FloatAxioms.div_spec.
    change (Prim2SF 0) with (S754_zero false) in *.
    destruct (Prim2SF x) as [s|[|]| |[|] m e]; try discriminate; reflexivity. }
  assert (Hn : (x / (-0))%float = infinity).
  { apply Prim2SF_inj. rewrite FloatAxioms.div_spec.
    change (Prim2SF 0) with (S754_zero false) in *.
    change (Prim2SF (-0)) with (S754_zero true) in *.
    destruct (Prim2SF x) as [s|[|]| |[|] m e]; try discriminate; reflexivity. }
  rewrite Hp, Hn. split; reflexivity.
Qed.

Lemma zero_over_zero (x p : float) :
  (x =? 0)%float = true -> (p =? 0)%float = true -> (x / p - 1)%float = nan.
Proof.
  intros Hx Hp. apply zero_cases in Hx, Hp.
  destruct Hx as [-> | ->], Hp as [-> | ->]; reflexivity.
Qed.

Lemma ltb_not_nan (x y : float) :
  (x <? y)%float = true -> x <> nan /\ y <> nan.
Proof.
  intros H. split; intros ->; rewrite FloatAxioms.ltb_spec in H.
  - discriminate.
  - change (Prim2SF nan) with S754_nan in H. unfold SFltb, SFcompare in H.
    destruct (Prim2SF x); discriminate.
Qed.

(** A missing value after one that is there is filled with that value. *)
Lemma ffill_from_nth_missing (last : float) (data : list float) (i : nat) :
  (S i < length data)%nat ->
  nth (S i) data nan = nan -> nth i data nan <> nan ->
  nth (S i) (ffill_from last data) nan = nth i data nan.
Proof.
  revert last i; induction data as [|x data IH]; intros last i Hi Hx Hp;
    cbn [length] in Hi; [lia|].
  destruct i as [|i].
  - destruct data as [|y data]; cbn [length] in Hi; [lia|].
    cbn [nth] in Hx, Hp |- *. subst y. cbn [ffill_from nth].
    change (PrimFloat.is_nan nan) with true. cbv iota.
    destruct (PrimFloat.is_nan x) eqn:E; [|reflexivity].
    apply is_nan_iff in E. contradiction.
  - cbn [ffill_from]. change (nth (S (S i)) (?a :: ?l) nan) with (nth (S i) l nan).
    change (nth (S i) (x :: data) nan) with (nth i data nan).
    apply IH; [lia | exact Hx | exact Hp].
Qed.

(** The volumes of two rows that follow each other, and the change on the
    second. *)
Lemma consecutive_rows (lib : pandas) (symbol : string) (response : option candles)
      (df : frame) (i : nat) (prev r : row) :
  fetch_symbol lib symbol response = Fetched df ->
  nth_error df i = Some prev -> nth_error df (S i) = Some r ->
  exists v,
    (S i < length v)%nat /\
    r_volume prev = nth i v nan /\ r_volume r = nth (S i) v nan /\
    r_volume_change r = Some (nth (S i) (pct_change (pads_pct_change lib) v) nan).
Proof.
  intros H Hprev Hr.
  destruct (fetch_symbol_fetched _ _ _ _ H)
    as (data & t & o & h & l & c & v & _ & _ & _ & _ & _ & _ & _ & _ & _ & Hb).
  assert (Hsome : exists df, build_frame lib symbol t o h l c v = Some df)
    by (exists df; exact Hb).
  apply build_frame_some in Hsome. destruct Hsome as (_ & _ & _ & _ & _ & Hlv).
  destruct (build_frame_row _ _ _ _ _ _ _ _ _ _ _ Hb Hprev) as [_ ->].
  destruct (build_frame_row _ _ _ _ _ _ _ _ _ _ _ Hb Hr) as [Hi ->].
  exists v. repeat split. lia.
Qed.

(** The change after a volume of zero, in every case of the next volume. *)
Lemma pct_change_after_zero (pad : bool) (v : list float) (i : nat) :
  (S i < length v)%nat -> (nth i v nan =? 0)%float = true ->
  ((0 <? nth (S i) v nan)%float = true ->
   (nth i v nan = 0%float -> nth (S i) (pct_change pad v) nan = infinity) /\
   (nth i v nan = (-0)%float -> nth (S i) (pct_change pad v) nan = neg_infinity)) /\
  ((nth (S i) v nan <? 0)%float = true ->
   (nth i v nan = 0%float -> nth (S i) (pct_change pad v) nan = neg_infinity) /\
   (nth i v nan = (-0)%float -> nth (S i) (pct_change pad v) nan = infinity)) /\
  ((nth (S i) v nan =? 0)%float = true \/ nth (S i) v nan = nan ->
   nth (S i) (pct_change pad v) nan = nan).
Proof.
  intros Hi Hp.
  pose proof (eqb_zero_not_nan _ Hp) as Hpn.
  split; [|split].
  - intros Hx. destruct (ltb_not_nan _ _ Hx) as [_ Hxn].
    rewrite pct_change_later_present by (try exact Hi; right; split; assumption).
    destruct (pct_pos_over_zero _ Hx) as [Hpos Hneg].
    split; intros ->; assumption.
  - intros Hx. destruct (ltb_not_nan _ _ Hx) as [Hxn _].
    rewrite pct_change_later_present by (try exact Hi; right; split; assumption).
    destruct (pct_neg_over_zero _ Hx) as [Hpos Hneg].
    split; intros ->; assumption.
  - intros [Hx | Hx].
    + pose proof (eqb_zero_not_nan _ Hx) as Hxn.
      rewrite pct_change_later_present by (try exact Hi; right; split; assumption).
      apply zero_over_zero; assumption.
    + destruct pad.
      * rewrite pct_change_later by exact Hi. cbv zeta. unfold ffill.
        rewrite ffill_from_nth_missing by assumption.
        rewrite ffill_from_nth_present by assumption.
        apply zero_over_zero; assumption.
      * rewrite pct_change_later_present by (try exact Hi; left; reflexivity).
        rewrite Hx, div_nan_l. apply sub_nan_l.
Qed.

(** X23: After a candle with volume zero, volume_change is not missing but
    infinite when the next volume is not zero: its sign is that of the next
    volume after the zero 0.0, and the opposite one after the negative zero
    -0.0; the document carries the infinity.  It is NaN, and left out of
    the document, only when the next volume is zero too, or missing. *)
Theorem volume_change_after_zero_volume
        (lib : pandas) (symbol : string) (response : option candles) (df : frame)
        (i : nat) (prev r : row) :
  fetch_symbol lib symbol response = Fetched df ->
  nth_error df i = Some prev -> nth_error df (S i) = Some r ->
  (r_volume prev =? 0)%float = true ->
  ((0 <? r_volume r)%float = true ->
   (r_volume prev = 0%float -> r_volume_change r = Some infinity) /\
   (r_volume prev = (-0)%float -> r_volume_change r = Some neg_infinity)) /\
  ((r_volume r <? 0)%float = true ->
   (r_volume prev = 0%float -> r_volume_change r = Some neg_infinity) /\
   (r_volume prev = (-0)%float -> r_volume_change r = Some infinity)) /\
  ((0 <? r_volume r)%float = true \/ (r_volume r <? 0)%float = true ->
   exists y,
     (y = infinity \/ y = neg_infinity) /\ r_volume_change r = Some y /\
     forall d, action (set_season r) = Some d ->
               dict_get "volume_change" (_source d) = Some (JFloat y)) /\
  ((r_volume r =? 0)%float = true \/ r_volume r = nan ->
   r_volume_change r = Some nan /\
   forall d, action (set_season r) = Some d ->
             dict_get "volume_change" (_source d) = None).
Proof.
  intros H Hprev Hr Hp.
  destruct (consecutive_rows _ _ _ _ _ _ _ H Hprev Hr) as (v & Hi & Ep & Ex & Hvc).
  rewrite Ep in Hp |- *. rewrite Ex, Hvc.
  destruct (pct_change_after_zero (pads_pct_change lib) v i Hi Hp)
    as (Hpos & Hneg & Hnan).
  assert (Hdoc : forall y, r_volume_change r = Some y ->
                 forall d, action (set_season r) = Some d ->
                           dict_get "volume_change" (_source d)
                           = written_float (Some y)).
  { intros y Hy d Hd. destruct (action_set_season_optional r d Hd) as [-> _].
    rewrite Hy. reflexivity. }
  split; [|split; [|split]].
  - intros Hx. destruct (Hpos Hx) as [H0 H1].
    split; intros E; [rewrite (H0 E) | rewrite (H1 E)]; reflexivity.
  - intros Hx. destruct (Hneg Hx) as [H0 H1].
    split; intros E; [rewrite (H0 E) | rewrite (H1 E)]; reflexivity.
  - intros Hx. apply zero_cases in Hp.
    assert (Hy : nth (S i) (pct_change (pads_pct_change lib) v) nan = infinity \/
                 nth (S i) (pct_change (pads_pct_change lib) v) nan = neg_infinity).
    { destruct Hx as [Hx | Hx]; [destruct (Hpos Hx) as [H0 H1]
                                | destruct (Hneg Hx) as [H0 H1]];
        destruct Hp as [E | E]; auto. }
    exists (nth (S i) (pct_change (pads_pct_change lib) v) nan).
    split; [exact Hy|]. split; [reflexivity|].
    intros d Hd. rewrite (Hdoc _ Hvc d Hd).
    destruct Hy as [-> | ->]; reflexivity.
  - intros Hx. rewrite (Hnan Hx). split; [reflexivity|].
    intros d Hd. rewrite (Hdoc _ Hvc d Hd), (Hnan Hx). reflexivity.
Qed.

Lemma volume_change_after_zero_volume_witness :
  (exists r, nth_error zero_volume_frame 2 = Some r /\
             r_volume_change r = Some infinity) /\
  (exists r, nth_error negative_zero_frame 1 = Some r /\
             r_volume_change r = Some neg_infinity) /\
  (exists r, nth_error zero_volume_frame 2 = Some r /\
             exists y,
               (y = infinity \/ y = neg_infinity) /\ r_volume_change r = Some y /\
               forall d, action (set_season r) = Some d ->
                         dict_get "volume_change" (_source d) = Some (JFloat y)).
Proof.
  destruct (nth_error zero_volume_frame 1) as [prev|] eqn:Hprev; [|discriminate].
  destruct (nth_error zero_volume_frame 2) as [r|] eqn:Hr; [|discriminate].
  destruct (nth_error negative_zero_frame 0) as [prev'|] eqn:Hprev'; [|discriminate].
  destruct (nth_error negative_zero_frame 1) as [r'|] eqn:Hr'; [|discriminate].
  assert (Hp : (r_volume prev =? 0)%float = true)
    by (injection Hprev as <-; reflexivity).
  assert (Hp' : (r_volume prev' =? 0)%float = true)
    by (injection Hprev' as <-; reflexivity).
  pose proof (volume_change_after_zero_volume pandas_narrow "AAPL"
                (Some zero_volume_response) zero_volume_frame 1 prev r
                eq_refl Hprev Hr Hp) as (Hpos & _ & Hany & _).
  pose proof (volume_change_after_zero_volume pandas_wide "AAPL"
                (Some negative_zero_response) negative_zero_frame 0 prev' r'
                eq_refl Hprev' Hr' Hp') as (Hpos' & _).
  assert (Hx : (0 <? r_volume r)%float = true) by (injection Hr as <-; reflexivity).
  assert (Hx' : (0 <? r_volume r')%float = true) by (injection Hr' as <-; reflexivity).
  split; [|split].
  - exists r. split; [reflexivity|]. apply (Hpos Hx).
    injection Hprev as <-. reflexivity.
  - exists r'. split; [reflexivity|]. apply (Hpos' Hx').
    injection Hprev' as <-. reflexivity.
  - exists r. split; [reflexivity|]. apply Hany. left. exact Hx.
Defined.

Lemma py_int_zero (x : float) : (x =? 0)%float = true -> py_int x = Some 0.
Proof.
  intros H. apply eqb_zero_iff in H. destruct H as [s H].
  unfold py_int. rewrite H. reflexivity.
Qed.

(** X24: A fetched candle with volume zero is not dropped, as long as its
    timestamp and close are there: it is indexed with volume 0 and without
    price_per_volume. *)
Theorem zero_volume_candle_is_indexed
        (lib : pandas) (symbol : string) (response : option candles)
        (df : frame) (r : row) :
  fetch_symbol lib symbol response = Fetched df -> In r df ->
  (r_volume r =? 0)%float = true ->
  (r_timestamp r <> None -> r_close r <> nan ->
   In (set_season r) (dropna (add_season df))) /\
  (In (set_season r) (dropna (add_season df)) ->
   r_timestamp r <> None /\ r_close r <> nan) /\
  exists d, action (set_season r) = Some d /\
            dict_get "volume" (_source d) = Some (JInt 0) /\
            dict_get "price_per_volume" (_source d) = None.
Proof.
  intros H Hin Hz.
  destruct (fetched_row _ _ _ _ _ H Hin)
    as (t & o & h & l & c & v & i & _ & _ & Hlt & _ & Hlc & Hlv & Hr).
  assert (Hppv : r_price_per_volume r = Some nan).
  { rewrite Hr in Hz |- *. cbn [r_volume r_price_per_volume] in Hz |- *.
    rewrite price_per_volume_nth by lia. rewrite Hz. reflexivity. }
  assert (Hs : r_symbol r = Symbol symbol) by (rewrite Hr; reflexivity).
  pose proof (py_int_zero _ Hz) as Hint.
  split; [|split].
  - intros Hts Hc. unfold dropna, add_season. apply filter_In. split.
    + apply in_map. exact Hin.
    + rewrite complete_set_season. apply complete_true.
      repeat split; try assumption; [exists symbol; exact Hs|].
      apply eqb_zero_not_nan. exact Hz.
  - intros Hkept. unfold dropna in Hkept. apply filter_In in Hkept.
    destruct Hkept as [_ Hc]. rewrite complete_set_season in Hc.
    apply complete_true in Hc. tauto.
  - destruct (action_defined (set_season r)) as [d Hd].
    + discriminate.
    + intros E. cbn [set_season r_volume] in E. rewrite E in Hint. discriminate.
    + intros E. cbn [set_season r_volume] in E. rewrite E in Hint. discriminate.
    + exists d. split; [exact Hd|]. split.
      * apply (action_volume (set_season r) d 0 Hd). exact Hint.
      * destruct (action_set_season_optional r d Hd) as [_ ->].
        rewrite Hppv. reflexivity.
Qed.

Lemma zero_volume_candle_is_indexed_witness :
  exists r, nth_error zero_volume_frame 1 = Some r /\
            In (set_season r) (dropna (add_season zero_volume_frame)) /\
            exists d, action (set_season r) = Some d /\
                      dict_get "volume" (_source d) = Some (JInt 0) /\
                      dict_get "price_per_volume" (_source d) = None.
Proof.
  destruct (nth_error zero_volume_frame 1) as [r|] eqn:Hr; [|discriminate].
  exists r. split; [reflexivity|].
  assert (Hin : In r zero_volume_frame) by (apply (nth_error_In _ 1); exact Hr).
  assert (Hz : (r_volume r =? 0)%float = true) by (injection Hr as <-; reflexivity).
  destruct (zero_volume_candle_is_indexed pandas_narrow "AAPL"
              (Some zero_volume_response) zero_volume_frame r eq_refl Hin Hz)
    as (Hkept & _ & Hdoc).
  split; [|exact Hdoc].
  apply Hkept; injection Hr as <-; discriminate.
Defined.

(** X25: The first candle of every fetched symbol has no volume_change, and
    its document, which it has unless its volume is infinite, is without
    that key; a symbol with a single candle never has one. *)
Theorem first_candle_has_no_volume_change
        (lib : pandas) (symbol : string) (response : option candles) (df : frame) :
  fetch_symbol lib symbol response = Fetched df ->
  exists r,
    nth_error df 0 = Some r /\ r_volume_change r = Some nan /\
    (forall d, action (set_season r) = Some d ->
               dict_get "volume_change" (_source d) = None) /\
    (r_volume r <> infinity -> r_volume r <> neg_infinity ->
     exists d, action (set_season r) = Some d /\
               dict_get "volume_change" (_source d) = None).
Proof.
  intros H.
  destruct (fetch_symbol_fetched _ _ _ _ H)
    as (data & t & o & h & l & c & v & _ & _ & _ & Hne & _ & _ & _ & _ & _ & Hb).
  pose proof (build_frame_length _ _ _ _ _ _ _ _ _ Hb) as Hlen.
  destruct df as [|r df]; [destruct t; [congruence | discriminate]|].
  destruct (build_frame_row _ _ _ _ _ _ _ _ _ 0 r Hb eq_refl) as [_ Hr].
  assert (Hvc : r_volume_change r = Some nan).
  { rewrite Hr. cbn [r_volume_change]. rewrite pct_change_first. reflexivity. }
  assert (Hdoc : forall d, action (set_season r) = Some d ->
                           dict_get "volume_change" (_source d) = None).
  { intros d Hd. destruct (action_set_season_optional r d Hd) as [-> _].
    rewrite Hvc. reflexivity. }
  exists r. split; [reflexivity|]. split; [exact Hvc|]. split; [exact Hdoc|].
  intros Hp Hn. destruct (action_defined (set_season r)) as [d Hd];
    try assumption; [discriminate|].
  exists d. split; [exact Hd | apply Hdoc; exact Hd].
Qed.

Lemma first_candle_has_no_volume_change_witness :
  exists r,
    nth_error [aapl_row] 0 = Some r /\ r_volume_change r = Some nan /\
    (forall d, action (set_season r) = Some d ->
               dict_get "volume_change" (_source d) = None) /\
    (r_volume r <> infinity -> r_volume r <> neg_infinity ->
     exists d, action (set_season r) = Some d /\
               dict_get "volume_change" (_source d) = None).
Proof.
  apply (first_candle_has_no_volume_change pandas_narrow "AAPL"
           (Some aapl_response) [aapl_row]).
  reflexivity.
Defined.

(** X26: A volume that is a number is written as an integer: the value
    itself when it is a whole number, and otherwise the value cut toward
    zero.  The value of a finite binary64 is its mantissa times a power of
    two, with its sign. *)
Theorem volume_is_written_as_integer (r : row) :
  r_season r <> None ->
  r_volume r <> nan -> r_volume r <> infinity -> r_volume r <> neg_infinity ->
  exists d z,
    action r = Some d /\
    dict_get "volume" (_source d) = Some (JInt z) /\
    (forall sign, Prim2SF (r_volume r) = S754_zero sign -> z = 0) /\
    (forall sign m e,
        Prim2SF (r_volume r) = S754_finite sign m e ->
        exists a,
          z = (if sign then - a else a) /\ 0 <= a /\
          (0 <= e -> a = Zpos m * 2 ^ e) /\
          (e < 0 -> a * 2 ^ (- e) <= Zpos m < (a + 1) * 2 ^ (- e))).
Proof.
  intros Hs Hnan Hp Hn.
  destruct (action_defined r Hs Hp Hn) as [d Hd].
  destruct (py_int (r_volume r)) as [z|] eqn:Hz.
  2:{ apply py_int_none in Hz. tauto. }
  exists d, z. split; [exact Hd|]. split; [apply (action_volume r d z Hd Hz)|].
  unfold py_int in Hz. split.
  - intros sign E. rewrite E in Hz. congruence.
  - intros sign m e E. rewrite E in Hz. injection Hz as <-.
    destruct e as [|p|p].
    + exists (Zpos m). repeat split; try lia.
    + exists (Zpos m * 2 ^ Zpos p). repeat split; try lia.
    + exists (Zpos m / 2 ^ Zpos p).
      assert (Hpow : 0 < 2 ^ Zpos p) by (apply Z.pow_pos_nonneg; lia).
      split; [reflexivity|]. split; [apply Z.div_pos; lia|]. split; [lia|].
      intros _. change (- Zneg p) with (Zpos p).
      pose proof (Z.mul_div_le (Zpos m) (2 ^ Zpos p) Hpow).
      pose proof (Z.mul_succ_div_gt (Zpos m) (2 ^ Zpos p) Hpow).
      split; nia.
Qed.

Lemma volume_is_written_as_integer_witness :
  exists d z,
    action fractional_volume_row = Some d /\
    dict_get "volume" (_source d) = Some (JInt z) /\
    (forall sign, Prim2SF (r_volume fractional_volume_row) = S754_zero sign -> z = 0) /\
    (forall sign m e,
        Prim2SF (r_volume fractional_volume_row) = S754_finite sign m e ->
        exists a,
          z = (if sign then - a else a) /\ 0 <= a /\
          (0 <= e -> a = Zpos m * 2 ^ e) /\
          (e < 0 -> a * 2 ^ (- e) <= Zpos m < (a + 1) * 2 ^ (- e))).
Proof.
  apply (volume_is_written_as_integer fractional_volume_row); discriminate.
Defined.

(** The document of the row with volume 1000.5 has volume 1000. *)
Example fractional_volume_is_cut :
  option_map (fun d => dict_get "volume" (_source d)) (action fractional_volume_row)
  = Some (Some (JInt 1000)).
Proof.
  reflexivity.
Qed.

Lemma fetch_loop_frames_witness :
  In [aapl_row] (fst (fetch_all world_up symbols [])).
Proof.
  destruct (fetch_loop_frames world_up symbols []) as (_ & Hiff & _).
  apply Hiff. exists "AAPL". split; [left; reflexivity | reflexivity].
Defined.
